(** * ImageController: upload, delete and purge of stored assets

    A shallow embedding of the Sails controller [ImageController]
    (actions [upload], [delete], [purge]) together with the small part of
    its environment the actions talk to: the asset directory
    [assets/images], the FHIR registry reached through axios, the image
    decoder sharp and the multipart receiver skipper.

    The controller is asynchronous but strictly sequential: every action
    awaits each effect before the next one.  An action is therefore a
    function from the state of the world before the request to a response
    and the state of the world after it.  What the environment answers
    during a request (the registry's replies, the random bytes, the clock)
    is an argument of the action, so that every theorem quantifies over it:
    a reply [Rejected] is a failed call, whatever made it fail. *)

From Stdlib Require Import Ascii String.
From stdpp Require Import gmap strings list fin_maps.

Local Open Scope N_scope.
#[local] Set Warnings "-clear-no-such-hyp".

(** ** JavaScript values *)

Module Js.

(** [x || fallback] and [if (x)] on a possibly missing string: [undefined]
    and the empty string are falsy. *)
Definition truthy (x : option string) : bool :=
  match x with
  | Some s => negb (String.eqb s "")
  | None => false
  end.

Definition or_else (x : option string) (fallback : string) : string :=
  match x with
  | Some s => if String.eqb s "" then fallback else s
  | None => fallback
  end.

(** A template literal prints a missing value as [undefined]. *)
Definition template (x : option string) : string :=
  match x with
  | Some s => s
  | None => "undefined"
  end.

(** [String.prototype.toLowerCase], on the ASCII letters. *)
Definition lower_ascii (c : ascii) : ascii :=
  let n := N_of_ascii c in
  if (65 <=? n) && (n <=? 90) then ascii_of_N (n + 32) else c.

Fixpoint toLowerCase (s : string) : string :=
  match s with
  | EmptyString => EmptyString
  | String c r => String (lower_ascii c) (toLowerCase r)
  end.

End Js.

(** ** Node's [path] module (POSIX flavour) *)

Module Path.

Definition slash : ascii := "/"%char.
Definition dot : ascii := "."%char.

Definition is_slash (c : ascii) : bool := Ascii.eqb c slash.
Definition is_dot (c : ascii) : bool := Ascii.eqb c dot.

Fixpoint drop_while (p : ascii → bool) (l : list ascii) : list ascii :=
  match l with
  | [] => []
  | c :: r => if p c then drop_while p r else l
  end.

Fixpoint take_while (p : ascii → bool) (l : list ascii) : list ascii :=
  match l with
  | [] => []
  | c :: r => if p c then c :: take_while p r else []
  end.

(** The last path component, read from the end of the path: trailing
    separators are skipped, then characters are taken up to the previous
    separator.  The result is kept reversed. *)
Definition last_part_rev (path : string) : list ascii :=
  take_while (λ c, negb (is_slash c))
    (drop_while is_slash (reverse (list_ascii_of_string path))).

(** [path.basename(p)] *)
Definition basename (path : string) : string :=
  string_of_list_ascii (reverse (last_part_rev path)).

(** [path.extname(p)]: from the last dot of the last component to its end;
    empty when there is no dot, when the only dot is the first character
    of the component, and for the component [..]. *)
Definition extname (path : string) : string :=
  let part := last_part_rev path in
  let suffix := take_while (λ c, negb (is_dot c)) part in
  match drop_while (λ c, negb (is_dot c)) part with
  | [] => ""
  | _ :: before =>
      match before, suffix with
      | [], _ => ""
      | [c], [] => if is_dot c then "" else "."
      | _, _ => string_of_list_ascii (dot :: reverse suffix)
      end
  end.

(** [path.parse(p)], fields [name] and [ext]. *)
Definition parse_ext (path : string) : string := extname path.

Definition parse_name (path : string) : string :=
  let base := list_ascii_of_string (basename path) in
  let ext := String.length (extname path) in
  string_of_list_ascii (take (length base - ext)%nat base).

End Path.

(** ** Data *)

(** A Node [Buffer]: a length and the bytes below it. *)
Record Buffer := {
  buf_length : N;
  buf_byte : N → Byte.byte;
}.

(** [crypto.randomBytes(8).toString('hex')]: sixteen hexadecimal digits, the
    eight bytes read as one big-endian number. *)
Module Hex.

Definition digit (n : N) : ascii :=
  nth (N.to_nat n) (list_ascii_of_string "0123456789abcdef") "0"%char.

Fixpoint go (k : nat) (n : N) (acc : string) : string :=
  match k with
  | O => acc
  | S k' => go k' (n / 16) (String (digit (n mod 16)) acc)
  end.

Definition toString (bytes8 : N) : string := go 16 bytes8 "".

End Hex.

(** *** FHIR resources, as far as the controller reads or writes them.
    A field the JSON may lack is an [option].  An entry of a search bundle
    always carries its resource, and the elements of [supportingInfo] are
    objects. *)
Module Fhir.

Record Attachment := {
  contentType : option string;
  url : option string;
  size : option N;
  title : option string;
  creation : option string;
}.

Record Content := { attachment : option Attachment }.

Record Coding := { system : string; code : string; display : string }.

Record DocumentReference := {
  resourceType : string;
  profile : list string;
  status : string;
  description : string;
  docStatus : string;
  type_coding : list Coding;
  content : option (list Content);
  subject : option string;
  author : option (list string);
  id : option string;
}.

Record Info := { reference : option string }.

Record ClinicalImpression := {
  ci_id : string;
  supportingInfo : option (list Info);
}.

(** The search bundle: [entry] holds the matching resources. *)
Record Bundle := { entry : option (list ClinicalImpression) }.

End Fhir.

(** *** Values thrown and caught inside the actions *)
Inductive Exn :=
  | E_EXCEEDS_UPLOAD_LIMIT
  | SharpError
  | TypeError
  | EISDIR
  | ENOENT.

(** *** axios: a promise resolves with a status and data, or rejects with an
    error that carries the response status when there was a response. *)
Inductive AxiosResult (A : Type) :=
  | Resolved (status : Z) (data : A)
  | Rejected (response : option Z) (message : string).
Arguments Resolved {A} status data.
Arguments Rejected {A} response message.

(** *** Responses of the actions *)
Inductive ErrorBody :=
  | ErrText (message : string)
  | ErrThrown (err : Exn)
  | ErrJson (success : bool) (message : string).

Inductive Response (A : Type) :=
  | ok (data : A)
  | badRequest (code message : string)
  | notFound (success : bool) (message : string)
  | serverError (body : ErrorBody).
Arguments ok {A} data.
Arguments badRequest {A} code message.
Arguments notFound {A} success message.
Arguments serverError {A} body.

Definition is_ok {A} (r : Response A) : bool :=
  match r with ok _ => true | _ => false end.

(** ** The world: asset directory, registry, effects issued, server log *)

Inductive Event :=
  | SharpMetadata
  | FsWrite (name : string)
  | FsUnlink (name : string)
  | HttpPost (doc : Fhir.DocumentReference)
  | HttpGet (id : string)
  | HttpSearch (id : string)
  | HttpPut (ci : Fhir.ClinicalImpression)
  | HttpDelete (id : string).

(** [impressions] is the registry's store of ClinicalImpression resources
    by id; [calls] lists the effects the actions issued, oldest first; [log]
    is what went to [sails.log]. *)
Record World := {
  assets : gmap string Buffer;
  impressions : gmap string Fhir.ClinicalImpression;
  calls : list Event;
  log : list string;
}.

Definition emit (e : Event) (w : World) : World :=
  {| assets := assets w; impressions := impressions w;
     calls := calls w ++ [e]; log := log w |}.

Definition log_error (msg : string) (w : World) : World :=
  {| assets := assets w; impressions := impressions w;
     calls := calls w; log := log w ++ [msg] |}.

Definition log_info := log_error.

Module Config.
Definition apiBaseUrl : string := "https://imagedb.fhir.tw".
Definition fhirServerUrl : string := "https://hapi.fhir.tw/fhir".
End Config.

(** ** The asset directory [assets/images]

    A flat directory of regular files, keyed by entry name.  A name handed
    to [path.join(appPath, 'assets/images', name)] that is empty, [.] or
    [..] resolves to a directory, which exists and cannot be unlinked. *)
Module Fs.

Definition resolves_to_directory (name : string) : bool :=
  String.eqb name "" || String.eqb name "." || String.eqb name "..".

Definition has_slash (name : string) : bool :=
  existsb Path.is_slash (list_ascii_of_string name).

(** Names a directory entry can have. *)
Definition entry_name (name : string) : bool :=
  negb (resolves_to_directory name) && negb (has_slash name).

Definition readdir (w : World) : list string :=
  (map_to_list (assets w)).*1.

Definition well_formed (w : World) : bool :=
  forallb entry_name (readdir w).

Definition existsSync (name : string) (w : World) : bool :=
  resolves_to_directory name || bool_decide (is_Some (assets w !! name)).

Definition writeFile (name : string) (data : Buffer) (w : World) : World :=
  emit (FsWrite name)
    {| assets := <[name := data]> (assets w); impressions := impressions w;
       calls := calls w; log := log w |}.

Definition unlink (name : string) (w : World) : Exn + World :=
  if resolves_to_directory name then inl EISDIR
  else match assets w !! name with
       | None => inl ENOENT
       | Some _ =>
           inr (emit (FsUnlink name)
                  {| assets := delete name (assets w);
                     impressions := impressions w;
                     calls := calls w; log := log w |})
       end.

End Fs.

(** ** sharp and skipper *)

(** What the controller asks of sharp.  [None] is a rejected promise. *)
Class Sharp := {
  metadata : Buffer → option string;
  toFile : Buffer → option Buffer;
  resize_toFile : N → N → Buffer → option Buffer;
}.

Module Skipper.

(** A file of the upstream: the name and type the client sent, and the
    bytes [fs.readFileSync(file.fd)] returns. *)
Record File := {
  filename : option string;
  type : option string;
  fd : Buffer;
}.

Definition upstream_size (parts : list File) : N :=
  foldr (λ p n, buf_length (fd p) + n) 0 parts.

(** [req.file('image').upload({ maxBytes }, cb)]: the callback gets an
    error when the upstream carries more than [maxBytes] bytes and the
    received files otherwise.  [at_limit] tells whether an upstream of
    exactly [maxBytes] bytes is refused too. *)
Definition upload (at_limit : bool) (maxBytes : N) (parts : list File)
  : Exn + list File :=
  if (maxBytes <? upstream_size parts)
     || (at_limit && (upstream_size parts =? maxBytes))
  then inl E_EXCEEDS_UPLOAD_LIMIT
  else inr parts.

End Skipper.

(** ** Requests and what the environment answers during one request *)

Record UploadRequest := {
  patientId : option string;
  practitionerId : option string;
  image : list Skipper.File;
}.

Record UploadEnv := {
  randomBytes : N;
  toISOString : nat → string;
  Date_now : Z;
  post_reply : AxiosResult Fhir.DocumentReference;
}.

Record DeleteEnv := {
  get_reply : AxiosResult Fhir.DocumentReference;
  search_reply : AxiosResult (option Fhir.Bundle);
  put_reply : Fhir.ClinicalImpression → AxiosResult unit;
  delete_reply : AxiosResult unit;
}.

Record UploadOk := {
  ok_filename : string;
  ok_size : N;
  ok_path : string;
  ok_path_thumbnail : option string;
  ok_timestamp : Z;
  ok_url : string;
  ok_delete : string;
  ok_fhir : option Fhir.DocumentReference;
}.

Record Done := { done_success : bool; done_message : string }.

(** ** The controller *)

Module ImageController.

Definition maxBytes : N := 1073741824.

Definition msg_no_file : string := "沒有上傳檔案".
Definition msg_invalid_id : string := "無效的 FHIR ID".
Definition msg_not_found : string := "找不到指定的 FHIR DocumentReference".
Definition msg_fetch_failed : string := "無法從 FHIR 伺服器取得 DocumentReference".
Definition msg_unlink_failed : string := "檔案刪除失敗，但 FHIR 資源可能已被刪除".
Definition msg_deleted : string := "檔案及對應的 FHIR DocumentReference 已成功刪除".
Definition msg_purged : string := "所有檔案已成功刪除".
Definition msg_registration_failed : string :=
  "Failed to create DocumentReference on FHIR server.".

Definition allowed_formats : list string := ["jpeg"; "png"; "gif"; "webp"].

Section Upload.
Context `{sharp : Sharp}.
Variable at_limit : bool.

(** Lines 63-73: [imageType] and [isImage] after the [try]. *)
Definition classify (fileBuffer : Buffer) : option string * bool :=
  match metadata fileBuffer with
  | Some format => (Some format, bool_decide (format ∈ allowed_formats))
  | None => (None, false)
  end.

(** Lines 82-89. *)
Definition filenameFull (uniqueId : string) (isImage : bool)
    (imageType : option string) (original : option string) : string :=
  if isImage then uniqueId +:+ "." +:+ from_option (λ s, s) "null" imageType
  else
    let originalExt :=
      Js.toLowerCase (Path.extname (Js.or_else original "")) in
    uniqueId +:+ originalExt.

(** Line 98. *)
Definition thumbnailFilename (full : string) : string :=
  Path.parse_name full +:+ "_thumb" +:+ Path.parse_ext full.

Definition imageUrl (name : string) : string :=
  Config.apiBaseUrl +:+ "/images/" +:+ name.

(** Lines 105-116: the files written; a rejected sharp promise leaves
    what was written before it. *)
Definition store (isImage : bool) (fileBuffer : Buffer) (full : string)
    (w : World) : (Exn * World) + World :=
  if isImage then
    match toFile fileBuffer with
    | None => inl (SharpError, w)
    | Some original =>
        let w := Fs.writeFile full original w in
        match resize_toFile 128 128 fileBuffer with
        | None => inl (SharpError, w)
        | Some thumb => inr (Fs.writeFile (thumbnailFilename full) thumb w)
        end
    end
  else inr (Fs.writeFile full fileBuffer w).

(** Lines 141-170. *)
Definition attachments (isImage : bool) (imageType : option string)
    (mime : option string) (full : string) (fileSizeBytes : N)
    (now : nat → string) : list Fhir.Content :=
  if isImage then
    let ct := "image/" +:+ from_option (λ s, s) "null" imageType in
    [ {| Fhir.attachment := Some
           {| Fhir.contentType := Some ct;
              Fhir.url := Some (imageUrl full);
              Fhir.size := Some fileSizeBytes;
              Fhir.title := Some "full-image";
              Fhir.creation := Some (now 0%nat) |} |};
      {| Fhir.attachment := Some
           {| Fhir.contentType := Some ct;
              Fhir.url := Some (imageUrl (thumbnailFilename full));
              Fhir.size := None;
              Fhir.title := Some "thumbnail";
              Fhir.creation := Some (now 1%nat) |} |} ]
  else
    let mimeType := Js.or_else mime "application/octet-stream" in
    [ {| Fhir.attachment := Some
           {| Fhir.contentType := Some mimeType;
              Fhir.url := Some (imageUrl full);
              Fhir.size := Some fileSizeBytes;
              Fhir.title := Some "file";
              Fhir.creation := Some (now 0%nat) |} |} ].

(** Lines 119-178. *)
Definition documentReference (req : UploadRequest)
    (contents : list Fhir.Content) : Fhir.DocumentReference :=
  {| Fhir.resourceType := "DocumentReference";
     Fhir.profile :=
       ["https://twcore.mohw.gov.tw/ig/twcore/StructureDefinition/DocumentReference-twcore"];
     Fhir.status := "current";
     Fhir.description := "hah";
     Fhir.docStatus := "final";
     Fhir.type_coding :=
       [ {| Fhir.system := "http://loinc.org"; Fhir.code := "72170-4";
            Fhir.display := "Attachment" |} ];
     Fhir.content := Some contents;
     Fhir.subject :=
       if Js.truthy (patientId req)
       then Some ("Patient/" +:+ Js.template (patientId req)) else None;
     Fhir.author :=
       if Js.truthy (practitionerId req)
       then Some ["Practitioner/" +:+ Js.template (practitionerId req)]
       else None;
     Fhir.id := None |}.

Definition upload (req : UploadRequest) (env : UploadEnv) (w : World)
  : Response UploadOk * World :=
  match Skipper.upload at_limit maxBytes (image req) with
  | inl err => (serverError (ErrThrown err), log_error "File upload error:" w)
  | inr [] => (badRequest "E_NO_FILE" msg_no_file, w)
  | inr (file0 :: _) =>
      let fileBuffer := Skipper.fd file0 in
      if buf_length fileBuffer =? 0
      then (badRequest "E_NO_FILE" msg_no_file, w)
      else
        let fileSizeBytes := buf_length fileBuffer in
        let w := emit SharpMetadata w in
        let imageType := (classify fileBuffer).1 in
        let isImage := (classify fileBuffer).2 in
        let uniqueId := Hex.toString (randomBytes env) in
        let full :=
          filenameFull uniqueId isImage imageType (Skipper.filename file0) in
        match store isImage fileBuffer full w with
        | inl (err, w) =>
            (serverError (ErrThrown err), log_error "File upload error:" w)
        | inr w =>
            let doc :=
              documentReference req
                (attachments isImage imageType (Skipper.type file0) full
                   fileSizeBytes (toISOString env)) in
            let w := emit (HttpPost doc) w in
            match post_reply env with
            | Rejected _ _ =>
                (serverError (ErrText msg_registration_failed),
                 log_error "FHIR server error:" w)
            | Resolved status data =>
                let fhirResponse :=
                  if (status =? 201)%Z then Some data else None in
                (ok {| ok_filename := full;
                       ok_size := fileSizeBytes;
                       ok_path := "/images/" +:+ full;
                       ok_path_thumbnail :=
                         if isImage
                         then Some ("/images/" +:+ thumbnailFilename full)
                         else None;
                       ok_timestamp := Date_now env;
                       ok_url := imageUrl full;
                       ok_delete :=
                         Config.apiBaseUrl +:+ "/delete/"
                         +:+ Js.template (fhirResponse ≫= Fhir.id);
                       ok_fhir := fhirResponse |}, w)
            end
        end
  end.

End Upload.

(** *** delete *)

Definition target (id : string) : string := "DocumentReference/" +:+ id.

(** Lines 259-261: the references kept. *)
Definition keeps (id : string) (info : Fhir.Info) : bool :=
  negb (bool_decide (Fhir.reference info = Some (target id))).

(** Line 265: the resource with its filtered list. *)
Definition without (id : string) (clinicalImpression : Fhir.ClinicalImpression)
  : Fhir.ClinicalImpression :=
  {| Fhir.ci_id := Fhir.ci_id clinicalImpression;
     Fhir.supportingInfo :=
       List.filter (keeps id) <$> Fhir.supportingInfo clinicalImpression |}.

(** A resolved PUT replaces the registry's record of that id by the body
    sent. *)
Definition put (env : DeleteEnv) (body : Fhir.ClinicalImpression) (w : World)
  : World :=
  let w := emit (HttpPut body) w in
  match put_reply env body with
  | Resolved _ _ =>
      log_info "Updated ClinicalImpression"
        {| assets := assets w;
           impressions := <[Fhir.ci_id body := body]> (impressions w);
           calls := calls w; log := log w |}
  | Rejected _ _ => log_error "Failed to update ClinicalImpression" w
  end.

(** Lines 256-284, one turn of the loop. *)
Definition detach (id : string) (env : DeleteEnv) (w : World)
    (clinicalImpression : Fhir.ClinicalImpression) : World :=
  match Fhir.supportingInfo clinicalImpression with
  | None => w
  | Some infos =>
      let updatedSupportingInfo := List.filter (keeps id) infos in
      if (length updatedSupportingInfo =? length infos)%nat then w
      else put env (without id clinicalImpression) w
  end.

(** Lines 244-253. *)
Definition found (reply : AxiosResult (option Fhir.Bundle))
  : list Fhir.ClinicalImpression :=
  match reply with
  | Resolved _ (Some bundle) => default [] (Fhir.entry bundle)
  | _ => []
  end.

(** Lines 296-303: the loop stops at the first throw, with the files
    unlinked so far gone. *)
Fixpoint unlink_all (contents : list Fhir.Content) (w : World)
  : (Exn * World) + World :=
  match contents with
  | [] => inr w
  | c :: rest =>
      match Fhir.attachment c ≫= Fhir.url with
      | None => inl (TypeError, w)
      | Some fileUrl =>
          let filename := Path.basename fileUrl in
          if Fs.existsSync filename w then
            match Fs.unlink filename w with
            | inl err => inl (err, w)
            | inr w' => unlink_all rest w'
            end
          else unlink_all rest w
      end
  end.

Definition delete (id : string) (env : DeleteEnv) (w : World)
  : Response Done * World :=
  if negb (Js.truthy (Some id))
  then (badRequest "E_INVALID_ID" msg_invalid_id, w)
  else
    let w := emit (HttpGet id) w in
    match get_reply env with
    | Rejected response _ =>
        let w := log_error "Failed to fetch DocumentReference:" w in
        if bool_decide (response = Some 404%Z)
        then (notFound false msg_not_found, w)
        else (serverError (ErrText msg_fetch_failed), w)
    | Resolved _ docRef =>
        let w := emit (HttpSearch id) w in
        let w :=
          match search_reply env with
          | Resolved _ _ => w
          | Rejected _ _ => log_error "Failed to fetch ClinicalImpressions:" w
          end in
        let clinicalImpressions := found (search_reply env) in
        let w := foldl (detach id env) w clinicalImpressions in
        let w := emit (HttpDelete id) w in
        let w :=
          match delete_reply env with
          | Resolved _ _ => w
          | Rejected _ _ => log_error "Failed to delete DocumentReference:" w
          end in
        match Fhir.content docRef with
        | None =>
            (serverError (ErrJson false msg_unlink_failed),
             log_error "File deletion error:" w)
        | Some contents =>
            match unlink_all contents w with
            | inl (_, w) =>
                (serverError (ErrJson false msg_unlink_failed),
                 log_error "File deletion error:" w)
            | inr w =>
                (ok {| done_success := true; done_message := msg_deleted |}, w)
            end
        end
    end.

(** *** purge *)

(** Lines 331-335. *)
Fixpoint unlink_each (files : list string) (w : World)
  : (Exn * World) + World :=
  match files with
  | [] => inr w
  | file :: rest =>
      if String.eqb file ".gitkeep" then unlink_each rest w
      else
        match Fs.unlink file w with
        | inl err => inl (err, w)
        | inr w' => unlink_each rest w'
        end
  end.

Definition purge (w : World) : Response Done * World :=
  match unlink_each (Fs.readdir w) w with
  | inl (err, w) =>
      (serverError (ErrThrown err), log_error "Files purge error:" w)
  | inr w => (ok {| done_success := true; done_message := msg_purged |}, w)
  end.

End ImageController.

(** ** Sample buffers and a sample decoder, for the worked examples *)

Module Demo.

Definition of_bytes (l : list Byte.byte) : Buffer :=
  {| buf_length := N.of_nat (length l);
     buf_byte := λ i, nth (N.to_nat i) l Byte.x00 |}.

Definition png : Buffer := of_bytes [Byte.x89; Byte.x50; Byte.x4e; Byte.x47].
Definition tiff : Buffer := of_bytes [Byte.x49; Byte.x49; Byte.x2a; Byte.x00].
Definition text : Buffer := of_bytes [Byte.x68; Byte.x69].
Definition empty : Buffer := of_bytes [].
Definition huge : Buffer :=
  {| buf_length := 1073741825; buf_byte := λ _, Byte.x00 |}.

(** Decodes by the first byte; keeps the bytes when writing. *)
Definition sharp : Sharp :=
  {| metadata b :=
       if buf_length b =? 0 then None
       else match buf_byte b 0 with
            | Byte.x89 => Some "png"
            | Byte.xff => Some "jpeg"
            | Byte.x49 => Some "tiff"
            | _ => None
            end;
     toFile b := Some b;
     resize_toFile width height b :=
       Some {| buf_length := width * height; buf_byte := buf_byte b |} |}.

Definition file (name : string) (b : Buffer) : Skipper.File :=
  {| Skipper.filename := Some name; Skipper.type := None; Skipper.fd := b |}.

Definition request (files : list Skipper.File) : UploadRequest :=
  {| patientId := None; practitionerId := None; image := files |}.

Definition created : Fhir.DocumentReference :=
  {| Fhir.resourceType := "DocumentReference"; Fhir.profile := [];
     Fhir.status := "current"; Fhir.description := "hah";
     Fhir.docStatus := "final"; Fhir.type_coding := [];
     Fhir.content := Some []; Fhir.subject := None; Fhir.author := None;
     Fhir.id := Some "42" |}.

Definition env (reply : AxiosResult Fhir.DocumentReference) : UploadEnv :=
  {| randomBytes := 81985529216486895;
     toISOString := λ _, "2025-01-01T00:00:00.000Z";
     Date_now := 1735689600000;
     post_reply := reply |}.

Definition world0 : World :=
  {| assets := ∅; impressions := ∅; calls := []; log := [] |}.

End Demo.

(** ** Notions the statements use *)

Definition empty_payload (files : list Skipper.File) : Prop :=
  match files with
  | [] => True
  | file0 :: _ => buf_length (Skipper.fd file0) = 0
  end.

Definition titled (c : Fhir.Content) : option string * option string :=
  match Fhir.attachment c with
  | Some a => (Fhir.title a, Fhir.contentType a)
  | None => (None, None)
  end.

(** The format an upload goes by: the decoded one when the payload is
    classified as an image, none otherwise. *)
Definition detected_format (classified : option string * bool) : option string :=
  if classified.2 then classified.1 else None.

(** The extension in the specification's words: the detected format for an
    image; otherwise the extension of the original filename in lower case,
    without its dot, and the empty string when the name has none. *)
Definition spec_extension (detected : option string) (original : option string)
  : string :=
  match detected with
  | Some format => format
  | None =>
      match Js.toLowerCase (Path.extname (Js.or_else original "")) with
      | String _ ext => ext
      | EmptyString => ""
      end
  end.


(** The stored filename as the code derives it, in the same words. *)
Definition stored_filename (uniqueId : string) (detected : option string)
    (original : option string) : string :=
  match detected with
  | Some format => uniqueId +:+ "." +:+ format
  | None =>
      if decide (Path.extname (Js.or_else original "") = "") then uniqueId
      else uniqueId +:+ "." +:+ spec_extension None original
  end.

Definition with_delete_reply (reply : AxiosResult unit) (env : DeleteEnv)
  : DeleteEnv :=
  {| get_reply := get_reply env; search_reply := search_reply env;
     put_reply := put_reply env; delete_reply := reply |}.

(** The world a loop stopped in, thrown or not. *)
Definition reached (r : (Exn * World) + World) : World :=
  match r with
  | inl (_, w) => w
  | inr w => w
  end.

Definition thrown (r : (Exn * World) + World) : option Exn :=
  match r with
  | inl (err, _) => Some err
  | inr _ => None
  end.

(** No reference to [DocumentReference/<id>] in the resource's list. *)
Definition detached (id : string) (ci : Fhir.ClinicalImpression) : Prop :=
  ∀ infos info,
    Fhir.supportingInfo ci = Some infos → info ∈ infos →
    Fhir.reference info ≠ Some (ImageController.target id).

(** What the cascade keeps true of the registry's records, from the store
    [m0] it started with to the store [m] it has reached: records are never
    dropped, and a record is either the one it was or a detached one. *)
Definition cascade_inv (id : string)
    (m0 m : gmap string Fhir.ClinicalImpression) : Prop :=
  (∀ k, is_Some (m0 !! k) → is_Some (m !! k)) ∧
  (∀ k c, m !! k = Some c → m0 !! k = Some c ∨ detached id c).


(** ** Sample worlds and registry behaviours *)

Definition purge_world : World :=
  {| assets := <[".gitkeep" := Demo.empty]>
                 (<["0123456789abcdef.png" := Demo.png]>
                    (<["0123456789abcdef_thumb.png" := Demo.png]> ∅));
     impressions := ∅; calls := []; log := [] |}.

Definition attached (fileUrl : option string) : Fhir.Content :=
  {| Fhir.attachment := Some
       {| Fhir.contentType := Some "image/png"; Fhir.url := fileUrl;
          Fhir.size := None; Fhir.title := None; Fhir.creation := None |} |}.

Definition record_of (contents : list Fhir.Content) : Fhir.DocumentReference :=
  {| Fhir.resourceType := "DocumentReference"; Fhir.profile := [];
     Fhir.status := "current"; Fhir.description := "hah";
     Fhir.docStatus := "final"; Fhir.type_coding := [];
     Fhir.content := Some contents; Fhir.subject := None; Fhir.author := None;
     Fhir.id := Some "42" |}.

Definition stored_world : World :=
  {| assets := <["0123456789abcdef.png" := Demo.png]>
                 (<["0123456789abcdef_thumb.png" := Demo.png]> ∅);
     impressions := ∅; calls := []; log := [] |}.

(** The registry lost the connection after the fetch. *)
Definition registry_down_after_fetch (docRef : Fhir.DocumentReference)
  : DeleteEnv :=
  {| get_reply := Resolved 200 docRef;
     search_reply := Rejected None "timeout";
     put_reply := λ _, Rejected None "timeout";
     delete_reply := Rejected None "timeout" |}.

Definition stored_record : Fhir.DocumentReference :=
  record_of
    [attached (Some "https://imagedb.fhir.tw/images/0123456789abcdef.png");
     attached (Some "https://imagedb.fhir.tw/images/0123456789abcdef_thumb.png")].

(** A record whose first attachment carries no URL. *)
Definition inline_first_record : Fhir.DocumentReference :=
  record_of
    [attached None;
     attached (Some "https://imagedb.fhir.tw/images/0123456789abcdef.png")].

Definition impression_1 : Fhir.ClinicalImpression :=
  {| Fhir.ci_id := "ci1";
     Fhir.supportingInfo :=
       Some [ {| Fhir.reference := Some "DocumentReference/42" |};
              {| Fhir.reference := Some "Observation/7" |} ] |}.

Definition cascade_world : World :=
  {| assets := assets stored_world;
     impressions := {[ "ci1" := impression_1 ]};
     calls := []; log := [] |}.

(** The registry answers every call but the update, which gets [put]. *)
Definition cascade_env (put : AxiosResult unit) : DeleteEnv :=
  {| get_reply := Resolved 200 stored_record;
     search_reply := Resolved 200 (Some {| Fhir.entry := Some [impression_1] |});
     put_reply := λ _, put;
     delete_reply := Resolved 204 () |}.

(** ** Further notions: names, identifiers, what a delete cleans *)

Definition slashless (s : string) : Prop :=
  Forall (λ c, Path.is_slash c = false) (list_ascii_of_string s).

Definition dotless (s : string) : Prop :=
  Forall (λ c, Path.is_dot c = false) (list_ascii_of_string s).

(** The value of a hexadecimal digit, and of a string of them read as one
    big-endian number: what [Buffer.from(s, 'hex')] gives back. *)
Definition hex_value (c : ascii) : N :=
  match c with
  | "0" => 0 | "1" => 1 | "2" => 2 | "3" => 3 | "4" => 4 | "5" => 5
  | "6" => 6 | "7" => 7 | "8" => 8 | "9" => 9 | "a" => 10 | "b" => 11
  | "c" => 12 | "d" => 13 | "e" => 14 | "f" => 15 | _ => 0
  end%char.

Definition unhex (s : string) : N :=
  foldl (λ acc c, 16 * acc + hex_value c) 0 (list_ascii_of_string s).

Definition hex_char (c : ascii) : bool :=
  existsb (Ascii.eqb c) (list_ascii_of_string "0123456789abcdef").

Definition written_names (r : UploadOk) : list string :=
  ok_filename r
  :: match ok_path_thumbnail r with
     | Some _ => [ImageController.thumbnailFilename (ok_filename r)]
     | None => []
     end.

(** The local file names a record's attachments point at: the basenames of
    their URLs, in order. *)
Definition local_names (contents : list Fhir.Content) : list string :=
  omap (λ c, Path.basename <$> (Fhir.attachment c ≫= Fhir.url)) contents.

(** An attachment the cleanup loop gets past: it has a URL, and the URL's
    basename does not name a directory. *)
Definition cleanable (c : Fhir.Content) : Prop :=
  ∃ fileUrl, Fhir.attachment c ≫= Fhir.url = Some fileUrl
             ∧ Fs.resolves_to_directory (Path.basename fileUrl) = false.

(** The world a delete has reached when the local cleanup starts: fetch,
    search, cascade and registry DELETE are behind it (lines 230-292). *)
Definition before_cleanup (id : string) (env : DeleteEnv) (w : World) : World :=
  let w := emit (HttpSearch id) (emit (HttpGet id) w) in
  let w :=
    match search_reply env with
    | Resolved _ _ => w
    | Rejected _ _ => log_error "Failed to fetch ClinicalImpressions:" w
    end in
  let w :=
    emit (HttpDelete id)
      (foldl (ImageController.detach id env) w
         (ImageController.found (search_reply env))) in
  match delete_reply env with
  | Resolved _ _ => w
  | Rejected _ _ => log_error "Failed to delete DocumentReference:" w
  end.

Definition is_unlink (e : Event) : Prop := ∃ name, e = FsUnlink name.

(** ** The [ok] response ([res.ok], [sendOK])

    What [sendOK(data, options)] sends, given the request ([req.wantsJSON]),
    the configuration ([sails.config.hooks.views === false]), what
    [util.inspect] makes of an object ([None] when it throws) and whether
    [res.guessView] finds a view or calls back. *)
Module SendOK.

(** The value handed over as [data]. *)
Inductive Data (A : Type) :=
  | Object (fields : A)
  | Error (message : string)
  | Null
  | Primitive (text : string)
  | Undefined.
Arguments Object {A} fields.
Arguments Error {A} message.
Arguments Null {A}.
Arguments Primitive {A} text.
Arguments Undefined {A}.

(** The second argument: left out, a string, or an object with or without a
    [view] field. *)
Inductive Options :=
  | NoOptions
  | ViewName (name : string)
  | OptionsObject (view : option string).

Record Request := {
  wantsJSON : bool;
  views_disabled : bool;
}.

Inductive Body (A : Type) :=
  | Envelope (success : bool) (data : Data A)
  | Bare (data : Data A).
Arguments Envelope {A} success data.
Arguments Bare {A} data.

Record Locals (A : Type) := {
  locals_data : Data A;
  locals_title : string;
}.
Arguments locals_data {A} _.
Arguments locals_title {A} _.

Inductive Sent (A : Type) :=
  | Json (body : Body A)
  | View (name : string) (locals : Locals A)
  | GuessedView (locals : Locals A).
Arguments Json {A} body.
Arguments View {A} name locals.
Arguments GuessedView {A} locals.

Record Reply (A : Type) := {
  status : Z;
  sent : Sent A;
}.
Arguments status {A} _.
Arguments sent {A} _.

(** Line 384: [options.view] after the normalisation. *)
Definition view_of (options : Options) : option string :=
  match options with
  | NoOptions => None
  | ViewName name => Some name
  | OptionsObject view => view
  end.

(** Lines 387-394: objects that are no [Error] (and [null], whose type is
    [object] too) are printed; a throwing [inspect] leaves [undefined]. *)
Definition viewData {A} (inspect : A → option string) (data : Data A) : Data A :=
  match data with
  | Object fields =>
      match inspect fields with
      | Some text => Primitive text
      | None => Undefined
      end
  | Null => Primitive "null"
  | _ => data
  end.

Definition sendOK {A} (req : Request) (inspect : A → option string)
    (guessed : bool) (data : Data A) (options : Options) : Reply A :=
  {| status := 200;
     sent :=
       if wantsJSON req || views_disabled req
       then Json (Envelope true data)
       else
         let locals :=
           {| locals_data := viewData inspect data; locals_title := "OK" |} in
         if Js.truthy (view_of options)
         then View (Js.template (view_of options)) locals
         else if guessed then GuessedView locals
         else Json (Bare data) |}.

Definition body_data {A} (body : Body A) : Data A :=
  match body with
  | Envelope _ data => data
  | Bare data => data
  end.


End SendOK.

(** ** More samples *)

(** A decoder like [Demo.sharp] whose thumbnail step fails. *)
Definition thumbless_sharp : Sharp :=
  {| metadata := @metadata Demo.sharp;
     toFile := @toFile Demo.sharp;
     resize_toFile := λ _ _ _, None |}.

Definition png_request : UploadRequest :=
  Demo.request [Demo.file "Photo.JPG" Demo.png].

Definition text_request : UploadRequest :=
  Demo.request [Demo.file "Notes.TXT" Demo.text].

Definition created_env : UploadEnv := Demo.env (Resolved 201 Demo.created).

Definition other_env : UploadEnv :=
  {| randomBytes := 1; toISOString := toISOString created_env;
     Date_now := Date_now created_env; post_reply := post_reply created_env |}.

Definition png_reply : UploadOk :=
  {| ok_filename := "0123456789abcdef.png";
     ok_size := 4;
     ok_path := "/images/0123456789abcdef.png";
     ok_path_thumbnail := Some "/images/0123456789abcdef_thumb.png";
     ok_timestamp := 1735689600000;
     ok_url := "https://imagedb.fhir.tw/images/0123456789abcdef.png";
     ok_delete := "https://imagedb.fhir.tw/delete/42";
     ok_fhir := Some Demo.created |}.

(** The world after the sample image upload, and the record it posted. *)
Definition png_world : World :=
  (ImageController.upload (sharp := Demo.sharp) false png_request created_env
     Demo.world0).2.


(** * Properties

    ** Paths, names and identifiers *)

Example basename_url :
  Path.basename "https://imagedb.fhir.tw/images/0123456789abcdef.png"
  = "0123456789abcdef.png".
Proof. reflexivity. Qed.

Example basename_trailing : Path.basename "a/b//" = "b".
Proof. reflexivity. Qed.

Example basename_root : Path.basename "/" = "".
Proof. reflexivity. Qed.

Example extname_upper : Js.toLowerCase (Path.extname "Scan.PDF") = ".pdf".
Proof. reflexivity. Qed.

Example extname_none : Path.extname "README" = "".
Proof. reflexivity. Qed.

Example extname_hidden : Path.extname ".gitkeep" = "".
Proof. reflexivity. Qed.

Example extname_dotdot : Path.extname ".." = "".
Proof. reflexivity. Qed.

Example extname_trailing_dot : Path.extname "index." = ".".
Proof. reflexivity. Qed.

Example extname_two : Path.extname "a.tar.gz" = ".gz".
Proof. reflexivity. Qed.

Example parse_png :
  (Path.parse_name "0123456789abcdef.png", Path.parse_ext "0123456789abcdef.png")
  = ("0123456789abcdef", ".png").
Proof. reflexivity. Qed.

Example hex_small : Hex.toString 255 = "00000000000000ff".
Proof. reflexivity. Qed.

Example upload_png :
  (@ImageController.upload Demo.sharp false
     (Demo.request [Demo.file "Photo.JPG" Demo.png])
     (Demo.env (Resolved 201 Demo.created)) Demo.world0).1
  = ok {| ok_filename := "0123456789abcdef.png";
          ok_size := 4;
          ok_path := "/images/0123456789abcdef.png";
          ok_path_thumbnail := Some "/images/0123456789abcdef_thumb.png";
          ok_timestamp := 1735689600000;
          ok_url := "https://imagedb.fhir.tw/images/0123456789abcdef.png";
          ok_delete := "https://imagedb.fhir.tw/delete/42";
          ok_fhir := Some Demo.created |}.
Proof. reflexivity. Qed.

Example upload_text_name :
  ok_filename <$>
    match (@ImageController.upload Demo.sharp false
             (Demo.request [Demo.file "Notes.TXT" Demo.text])
             (Demo.env (Resolved 201 Demo.created)) Demo.world0).1 with
    | ok r => Some r
    | _ => None
    end
  = Some "0123456789abcdef.txt".
Proof. reflexivity. Qed.

(** A format sharp decodes but the allow-list lacks is not an image. *)
Example classify_tiff :
  ImageController.classify (sharp := Demo.sharp) Demo.tiff = (Some "tiff", false).
Proof. reflexivity. Qed.

(** ** upload: receiving the payload *)

Lemma truthy_nonempty (s : string) : s ≠ "" → Js.truthy (Some s) = true.
Proof.
  intros Hs. unfold Js.truthy.
  destruct (String.eqb_spec s "") as [->|_]; [by destruct Hs | done].
Qed.

Lemma skipper_accepts at_limit limit parts :
  Skipper.upstream_size parts < limit →
  Skipper.upload at_limit limit parts = inr parts.
Proof.
  intros Hlt. unfold Skipper.upload.
  assert ((limit <? Skipper.upstream_size parts) = false) as -> by (apply N.ltb_ge; lia).
  assert ((Skipper.upstream_size parts =? limit) = false) as -> by (apply N.eqb_neq; lia).
  by rewrite andb_false_r.
Qed.

Lemma skipper_refuses at_limit limit parts :
  limit < Skipper.upstream_size parts →
  Skipper.upload at_limit limit parts = inl E_EXCEEDS_UPLOAD_LIMIT.
Proof.
  intros Hlt. unfold Skipper.upload.
  by assert ((limit <? Skipper.upstream_size parts) = true) as -> by (by apply N.ltb_lt).
Qed.

(** C4. An upload whose received payload is empty (no file, or a first file
    of zero bytes) is answered [badRequest] with code [E_NO_FILE], and the
    world is left as it was: nothing written to the asset directory, no
    call to the registry. *)
Theorem upload_empty_payload_rejected `{sharp : Sharp} (at_limit : bool)
    (req : UploadRequest) (env : UploadEnv) (w : World) :
  Skipper.upstream_size (image req) < ImageController.maxBytes →
  empty_payload (image req) →
  ImageController.upload at_limit req env w
  = (badRequest "E_NO_FILE" ImageController.msg_no_file, w).
Proof.
  intros Hsize Hempty. unfold ImageController.upload.
  rewrite (skipper_accepts _ _ _ Hsize).
  destruct (image req) as [|file0 rest]; [done|].
  simpl in Hempty. by rewrite Hempty.
Qed.

Lemma upload_empty_payload_rejected_witness :
  ImageController.upload (sharp := Demo.sharp) true
    (Demo.request [Demo.file "a.png" Demo.empty])
    (Demo.env (Resolved 201 Demo.created)) Demo.world0
  = (badRequest "E_NO_FILE" ImageController.msg_no_file, Demo.world0).
Proof.
  apply (upload_empty_payload_rejected (sharp := Demo.sharp)).
  - vm_compute. reflexivity.
  - vm_compute. reflexivity.
Defined.

(** C10. The receive step is given [maxBytes] = 1073741824 = 2^30; an
    upstream larger than that makes it fail, and the upload is answered
    [serverError] with that error: the decoder is not asked, nothing is
    written to the asset directory and the registry is not called. *)
Theorem upload_over_limit_rejected `{sharp : Sharp} (at_limit : bool)
    (req : UploadRequest) (env : UploadEnv) (w : World) :
  ImageController.maxBytes < Skipper.upstream_size (image req) →
  ImageController.maxBytes = 2 ^ 30 ∧
  (ImageController.upload at_limit req env w).1
  = serverError (ErrThrown E_EXCEEDS_UPLOAD_LIMIT) ∧
  assets (ImageController.upload at_limit req env w).2 = assets w ∧
  impressions (ImageController.upload at_limit req env w).2 = impressions w ∧
  calls (ImageController.upload at_limit req env w).2 = calls w.
Proof.
  intros Hover. split; [reflexivity|].
  unfold ImageController.upload. by rewrite (skipper_refuses _ _ _ Hover).
Qed.

Lemma upload_over_limit_rejected_witness :
  (ImageController.upload (sharp := Demo.sharp) false
     (Demo.request [Demo.file "big.png" Demo.huge])
     (Demo.env (Resolved 201 Demo.created)) Demo.world0).1
  = serverError (ErrThrown E_EXCEEDS_UPLOAD_LIMIT).
Proof.
  apply (upload_over_limit_rejected (sharp := Demo.sharp) false
           (Demo.request [Demo.file "big.png" Demo.huge])).
  vm_compute. reflexivity.
Defined.

(** ** delete: the fetch *)

(** C5. When the fetch of the DocumentReference is rejected, the delete
    stops there: [404] with the not-found message when the error carries a
    response of status 404, [serverError] with the fetch-failed message
    otherwise.  The asset directory and the registry's records are
    untouched and the only call issued is the fetch. *)
Theorem delete_fetch_failure_is_terminal (id : string) (env : DeleteEnv)
    (w : World) (response : option Z) (message : string) :
  id ≠ "" →
  get_reply env = Rejected response message →
  (ImageController.delete id env w).1
  = (if bool_decide (response = Some 404%Z)
     then notFound false ImageController.msg_not_found
     else serverError (ErrText ImageController.msg_fetch_failed)) ∧
  assets (ImageController.delete id env w).2 = assets w ∧
  impressions (ImageController.delete id env w).2 = impressions w ∧
  calls (ImageController.delete id env w).2 = calls w ++ [HttpGet id].
Proof.
  intros Hid Hget. unfold ImageController.delete.
  rewrite (truthy_nonempty id Hid), Hget. simpl.
  by case_bool_decide.
Qed.

Lemma delete_fetch_failure_is_terminal_witness :
  (ImageController.delete "42"
     {| get_reply := Rejected (Some 404%Z) "Request failed with status code 404";
        search_reply := Rejected None "unreachable";
        put_reply := λ _, Rejected None "unreachable";
        delete_reply := Rejected None "unreachable" |} Demo.world0).1
  = notFound false ImageController.msg_not_found.
Proof.
  refine (proj1 (delete_fetch_failure_is_terminal "42" _ Demo.world0
                   (Some 404%Z) "Request failed with status code 404" _ _)).
  - vm_compute. discriminate.
  - reflexivity.
Defined.

(** ** upload: classification and the record posted *)

Lemma classify_image_format `{sharp : Sharp} (fileBuffer : Buffer) :
  (ImageController.classify fileBuffer).2 = true →
  ∃ format, metadata fileBuffer = Some format
            ∧ format ∈ ImageController.allowed_formats
            ∧ ImageController.classify fileBuffer = (Some format, true).
Proof.
  unfold ImageController.classify.
  destruct (metadata fileBuffer) as [format|]; simpl; [|done].
  case_bool_decide; [|done]. intros _. by exists format.
Qed.




(** C7. When an upload succeeds, the record posted to the registry (the
    last call issued) has, for an image, exactly the two attachments
    [full-image] and [thumbnail], in that order, both of content type
    [image/<format>] with the decoded format; and for any other payload
    exactly one attachment [file], of the MIME type the client sent or
    [application/octet-stream] when it sent none. *)
Theorem upload_posts_expected_attachments `{sharp : Sharp} (at_limit : bool)
    (req : UploadRequest) (env : UploadEnv) (w w' : World) (r : UploadOk) :
  ImageController.upload at_limit req env w = (ok r, w') →
  ∃ file0 rest doc contents,
    image req = file0 :: rest ∧
    last (calls w') = Some (HttpPost doc) ∧
    Fhir.content doc = Some contents ∧
    match ImageController.classify (Skipper.fd file0) with
    | (Some format, true) =>
        format ∈ ImageController.allowed_formats ∧
        titled <$> contents
        = [(Some "full-image", Some ("image/" +:+ format));
           (Some "thumbnail", Some ("image/" +:+ format))]
    | (None, true) => False
    | (_, false) =>
        titled <$> contents
        = [(Some "file",
            Some (Js.or_else (Skipper.type file0) "application/octet-stream"))]
    end.
Proof.
  unfold ImageController.upload.
  destruct (Skipper.upload _ _ _) as [err|[|file0 rest]] eqn:Hrecv; [done..|].
  assert (image req = file0 :: rest) as Himage.
  { unfold Skipper.upload in Hrecv. by destruct (_ || _); simplify_eq. }
  destruct (_ =? 0); [done|].
  destruct (ImageController.store _ _ _ _) as [[err w1]|w1]; [done|].
  destruct (post_reply env) as [status data|]; [|done].
  intros [= <- <-]. eexists file0, rest, _, _.
  split; [done|]. split; [simpl; by rewrite last_snoc|]. split; [reflexivity|].
  destruct (ImageController.classify (Skipper.fd file0)) as [imageType isImage] eqn:Hc.
  destruct isImage.
  - destruct (classify_image_format (Skipper.fd file0)) as (format & _ & Hin & Hc').
    { by rewrite Hc. }
    rewrite Hc in Hc'. injection Hc' as ->. by split.
  - simpl. by destruct imageType.
Qed.

Lemma upload_posts_expected_attachments_witness :
  ∃ file0 rest doc contents,
    [Demo.file "Photo.JPG" Demo.png] = file0 :: rest ∧
    last (calls (ImageController.upload (sharp := Demo.sharp) false
                   (Demo.request [Demo.file "Photo.JPG" Demo.png])
                   (Demo.env (Resolved 201 Demo.created)) Demo.world0).2)
    = Some (HttpPost doc) ∧
    Fhir.content doc = Some contents ∧
    match ImageController.classify (sharp := Demo.sharp) (Skipper.fd file0) with
    | (Some format, true) =>
        format ∈ ImageController.allowed_formats ∧
        titled <$> contents
        = [(Some "full-image", Some ("image/" +:+ format));
           (Some "thumbnail", Some ("image/" +:+ format))]
    | (None, true) => False
    | (_, false) =>
        titled <$> contents
        = [(Some "file",
            Some (Js.or_else (Skipper.type file0) "application/octet-stream"))]
    end.
Proof.
  eapply (upload_posts_expected_attachments (sharp := Demo.sharp) false
            (Demo.request [Demo.file "Photo.JPG" Demo.png])
            (Demo.env (Resolved 201 Demo.created)) Demo.world0).
  reflexivity.
Defined.

(** ** upload: the stored filename *)

Lemma append_empty_r (s : string) : s +:+ "" = s.
Proof.
  induction s as [|c s IH]; [done|].
  change (String c s +:+ "") with (String c (s +:+ "")). by rewrite IH.
Qed.

Lemma extname_shape (path : string) :
  Path.extname path = "" ∨ ∃ ext, Path.extname path = String Path.dot ext.
Proof.
  unfold Path.extname.
  destruct (Path.drop_while _ _) as [|c before]; [by left|].
  destruct before as [|c1 [|c2 before]]; [by left| |right; by eexists].
  destruct (Path.take_while _ _); [|right; by eexists].
  destruct (Path.is_dot c1); [by left | right; by eexists].
Qed.

Lemma toLowerCase_dot (ext : string) :
  Js.toLowerCase (String Path.dot ext) = String Path.dot (Js.toLowerCase ext).
Proof. reflexivity. Qed.

(** The name the code derives, against the specification's formula. *)
Lemma filenameFull_shape `{sharp : Sharp} (uniqueId : string) (fileBuffer : Buffer)
    (original : option string) :
  ImageController.filenameFull uniqueId
    (ImageController.classify fileBuffer).2
    (ImageController.classify fileBuffer).1 original
  = stored_filename uniqueId
      (detected_format (ImageController.classify fileBuffer)) original.
Proof.
  unfold detected_format.
  destruct (ImageController.classify fileBuffer).2 eqn:Himg.
  - destruct (classify_image_format fileBuffer Himg) as (format & _ & _ & ->).
    reflexivity.
  - unfold ImageController.filenameFull, stored_filename, spec_extension.
    destruct (extname_shape (Js.or_else original "")) as [->|[ext ->]].
    + rewrite decide_True by done. apply append_empty_r.
    + rewrite decide_False by done. by rewrite toLowerCase_dot.
Qed.






(** ** upload: the registry's answer *)

(** C1.  An upload that reaches the registry and gets an answer axios
    resolves, with a status other than 201, is answered [ok]: the success
    payload has no registry resource and its delete link ends in
    [undefined], where the specification asks for a failed upload
    ([RegistrationError]). *)
Theorem upload_resolved_not_created_reported_ok `{sharp : Sharp} (at_limit : bool)
    (req : UploadRequest) (env : UploadEnv) (w : World)
    (file0 : Skipper.File) (rest : list Skipper.File)
    (status : Z) (data : Fhir.DocumentReference) :
  image req = file0 :: rest →
  buf_length (Skipper.fd file0) ≠ 0 →
  (∀ err, (ImageController.upload at_limit req env w).1
          ≠ serverError (ErrThrown err)) →
  post_reply env = Resolved status data →
  status ≠ 201%Z →
  ∃ r, (ImageController.upload at_limit req env w).1 = ok r
       ∧ ok_fhir r = None
       ∧ ok_delete r = Config.apiBaseUrl +:+ "/delete/undefined".
Proof.
  intros Himage Hlen Hthrow Hpost Hstatus. revert Hthrow.
  unfold ImageController.upload.
  destruct (Skipper.upload _ _ _) as [err|files] eqn:Hrecv.
  { intros Hthrow. by destruct (Hthrow err). }
  assert (files = file0 :: rest) as ->.
  { unfold Skipper.upload in Hrecv. destruct (_ || _); by simplify_eq. }
  apply N.eqb_neq in Hlen. rewrite Hlen.
  destruct (ImageController.store _ _ _ _) as [[err w1]|w1].
  { intros Hthrow. by destruct (Hthrow err). }
  rewrite Hpost. apply Z.eqb_neq in Hstatus. rewrite Hstatus.
  intros _. by eexists.
Qed.

Lemma upload_resolved_not_created_reported_ok_witness :
  ∃ r, (ImageController.upload (sharp := Demo.sharp) false
          (Demo.request [Demo.file "Photo.JPG" Demo.png])
          (Demo.env (Resolved 200 Demo.created)) Demo.world0).1 = ok r
       ∧ ok_fhir r = None
       ∧ ok_delete r = Config.apiBaseUrl +:+ "/delete/undefined".
Proof.
  refine (upload_resolved_not_created_reported_ok (sharp := Demo.sharp) false
            (Demo.request [Demo.file "Photo.JPG" Demo.png])
            (Demo.env (Resolved 200 Demo.created)) Demo.world0
            (Demo.file "Photo.JPG" Demo.png) [] 200 Demo.created
            eq_refl _ _ eq_refl _).
  - vm_compute. discriminate.
  - intros err. vm_compute. discriminate.
  - discriminate.
Defined.

(** The answer at that input, in full. *)
Example upload_status_200_reported_ok :
  (ImageController.upload (sharp := Demo.sharp) false
     (Demo.request [Demo.file "Photo.JPG" Demo.png])
     (Demo.env (Resolved 200 Demo.created)) Demo.world0).1
  = ok {| ok_filename := "0123456789abcdef.png";
          ok_size := 4;
          ok_path := "/images/0123456789abcdef.png";
          ok_path_thumbnail := Some "/images/0123456789abcdef_thumb.png";
          ok_timestamp := 1735689600000;
          ok_url := "https://imagedb.fhir.tw/images/0123456789abcdef.png";
          ok_delete := "https://imagedb.fhir.tw/delete/undefined";
          ok_fhir := None |}.
Proof. reflexivity. Qed.

(** The sibling path: a rejected POST is answered with the registration
    failure, never with [ok]. *)
Lemma upload_rejected_post_fails `{sharp : Sharp} (at_limit : bool)
    (req : UploadRequest) (env : UploadEnv) (w : World)
    (response : option Z) (message : string) :
  post_reply env = Rejected response message →
  is_ok (ImageController.upload at_limit req env w).1 = false.
Proof.
  intros Hpost. unfold ImageController.upload.
  destruct (Skipper.upload _ _ _) as [err|[|file0 rest]]; [done..|].
  destruct (_ =? 0); [done|].
  destruct (ImageController.store _ _ _ _) as [[err w1]|w1]; [done|].
  by rewrite Hpost.
Qed.

(** ** purge *)


Lemma unlink_inr (name : string) (w w' : World) :
  Fs.unlink name w = inr w' →
  assets w' = delete name (assets w) ∧ impressions w' = impressions w.
Proof.
  unfold Fs.unlink. destruct (Fs.resolves_to_directory name); [done|].
  destruct (assets w !! name); [|done]. by intros [= <-].
Qed.

Lemma readdir_elem (w : World) (name : string) :
  name ∈ Fs.readdir w ↔ is_Some (assets w !! name).
Proof.
  unfold Fs.readdir. rewrite list_elem_of_fmap. split.
  - intros ([k data] & -> & Hin). apply elem_of_map_to_list in Hin. by eexists.
  - intros [data Hdata]. exists (name, data). split; [done|].
    by apply elem_of_map_to_list.
Qed.


Lemma well_formed_entry (w : World) (name : string) :
  Fs.well_formed w = true → name ∈ Fs.readdir w → Fs.entry_name name = true.
Proof.
  unfold Fs.well_formed. rewrite forallb_forall. intros Hwf Hin.
  apply Hwf. by apply list_elem_of_In.
Qed.





Example purge_world_after :
  assets (ImageController.purge purge_world).2 = {[ ".gitkeep" := Demo.empty ]}.
Proof. by vm_compute. Qed.

(** ** delete: the local cleanup *)

Lemma put_frame (env : DeleteEnv) (body : Fhir.ClinicalImpression) (w : World) :
  assets (ImageController.put env body w) = assets w.
Proof. unfold ImageController.put. by destruct (put_reply env body). Qed.

Lemma detach_assets (id : string) (env : DeleteEnv) (w : World)
    (ci : Fhir.ClinicalImpression) :
  assets (ImageController.detach id env w ci) = assets w.
Proof.
  unfold ImageController.detach. destruct (Fhir.supportingInfo ci); [|done].
  destruct (_ =? _)%nat; [done|]. apply put_frame.
Qed.

Lemma cascade_assets (id : string) (env : DeleteEnv)
    (cis : list Fhir.ClinicalImpression) (w : World) :
  assets (foldl (ImageController.detach id env) w cis) = assets w.
Proof.
  revert w. induction cis as [|ci cis IH]; intros w; [done|].
  simpl. by rewrite IH, detach_assets.
Qed.

Lemma existsSync_files_only (name : string) (w1 w2 : World) :
  assets w1 = assets w2 → Fs.existsSync name w1 = Fs.existsSync name w2.
Proof. unfold Fs.existsSync. by intros ->. Qed.

Lemma unlink_files_only (name : string) (w1 w2 : World) :
  assets w1 = assets w2 →
  match Fs.unlink name w1, Fs.unlink name w2 with
  | inl e1, inl e2 => e1 = e2
  | inr w1', inr w2' => assets w1' = assets w2'
  | _, _ => False
  end.
Proof.
  unfold Fs.unlink. intros ->. destruct (Fs.resolves_to_directory name); [done|].
  by destruct (assets w2 !! name).
Qed.

(** The cleanup loop reads and changes the asset directory only. *)
Lemma unlink_all_files_only (contents : list Fhir.Content) (w1 w2 : World) :
  assets w1 = assets w2 →
  thrown (ImageController.unlink_all contents w1)
  = thrown (ImageController.unlink_all contents w2)
  ∧ assets (reached (ImageController.unlink_all contents w1))
    = assets (reached (ImageController.unlink_all contents w2)).
Proof.
  revert w1 w2. induction contents as [|c rest IH]; intros w1 w2 Hsame; [done|].
  simpl. destruct (Fhir.attachment c ≫= Fhir.url) as [fileUrl|]; [|done].
  rewrite (existsSync_files_only _ w1 w2 Hsame).
  destruct (Fs.existsSync _ w2); [|by apply IH].
  pose proof (unlink_files_only (Path.basename fileUrl) w1 w2 Hsame) as Hunlink.
  destruct (Fs.unlink _ w1) as [e1|w1'], (Fs.unlink _ w2) as [e2|w2'];
    try done; [by subst | by apply IH].
Qed.

Lemma unlink_all_impressions (contents : list Fhir.Content) (w : World) :
  impressions (reached (ImageController.unlink_all contents w)) = impressions w.
Proof.
  revert w. induction contents as [|c rest IH]; intros w; [done|].
  simpl. destruct (Fhir.attachment c ≫= Fhir.url) as [fileUrl|]; [|done].
  destruct (Fs.existsSync _ w); [|apply IH].
  destruct (Fs.unlink _ w) as [err|w1] eqn:Hunlink; [done|].
  rewrite IH. by apply unlink_inr in Hunlink as [_ ?].
Qed.

(** A cleanup loop that ran to its end removed every file it was asked to. *)
Lemma unlink_all_done (contents : list Fhir.Content) (w w' : World) :
  ImageController.unlink_all contents w = inr w' →
  (∀ name, assets w !! name = None → assets w' !! name = None) ∧
  (∀ c fileUrl,
     c ∈ contents → Fhir.attachment c ≫= Fhir.url = Some fileUrl →
     assets w' !! Path.basename fileUrl = None).
Proof.
  revert w. induction contents as [|c rest IH]; intros w.
  - intros [= <-]. split; [done|]. intros c fileUrl Hin. by apply elem_of_nil in Hin.
  - simpl. destruct (Fhir.attachment c ≫= Fhir.url) as [u|] eqn:Hurl; [|done].
    unfold Fs.existsSync.
    destruct (Fs.resolves_to_directory (Path.basename u)) eqn:Hdir; simpl.
    { unfold Fs.unlink. by rewrite Hdir. }
    case_bool_decide as Hfile.
    + destruct (Fs.unlink _ w) as [err|w1] eqn:Hunlink; [done|].
      apply unlink_inr in Hunlink as [Hassets _]. intros Hrest.
      destruct (IH _ Hrest) as [Hmono Hgone]. split.
      * intros name Hname. apply Hmono. rewrite Hassets.
        apply lookup_delete_None. by right.
      * intros c' fileUrl Hin Hurl'. apply elem_of_cons in Hin as [->|Hin].
        -- rewrite Hurl in Hurl'. injection Hurl' as <-.
           apply Hmono. rewrite Hassets. apply lookup_delete_eq.
        -- by eapply Hgone.
    + intros Hrest. destruct (IH _ Hrest) as [Hmono Hgone]. split; [done|].
      intros c' fileUrl Hin Hurl'. apply elem_of_cons in Hin as [->|Hin].
      * rewrite Hurl in Hurl'. injection Hurl' as <-. apply Hmono.
        destruct (assets w !! Path.basename u) eqn:Hlook; [|done].
        destruct Hfile. by eexists.
      * by eapply Hgone.
Qed.

(** C3, as the code has it.  For a delete whose fetch succeeds, the answer
    and the asset directory afterwards do not depend on how the registry's
    DELETE call ends: its failure is only logged and the local cleanup runs
    all the same.  When the delete answers [ok], no file is left whose name
    is the basename of an attachment URL of the fetched record. *)
Theorem delete_cleans_files_whatever_registry_delete_does (id : string)
    (env : DeleteEnv) (w : World) (status : Z)
    (docRef : Fhir.DocumentReference) :
  id ≠ "" →
  get_reply env = Resolved status docRef →
  (∀ reply,
     (ImageController.delete id (with_delete_reply reply env) w).1
     = (ImageController.delete id env w).1 ∧
     assets (ImageController.delete id (with_delete_reply reply env) w).2
     = assets (ImageController.delete id env w).2) ∧
  (is_ok (ImageController.delete id env w).1 = true →
   ∀ contents c fileUrl,
     Fhir.content docRef = Some contents →
     c ∈ contents →
     Fhir.attachment c ≫= Fhir.url = Some fileUrl →
     assets (ImageController.delete id env w).2 !! Path.basename fileUrl = None).
Proof.
  intros Hid Hget. unfold ImageController.delete.
  rewrite (truthy_nonempty id Hid). simpl. rewrite Hget.
  set (w1 := foldl _ _ _). split.
  - intros reply.
    destruct (Fhir.content docRef) as [contents|]; [|by destruct reply, (delete_reply env)].
    set (wa := match reply with Resolved _ _ => _ | Rejected _ _ => _ end).
    set (wb := match delete_reply env with Resolved _ _ => _ | Rejected _ _ => _ end).
    destruct (unlink_all_files_only contents wa wb) as [Hthrown Hassets].
    { unfold wa, wb. by destruct reply, (delete_reply env). }
    destruct (ImageController.unlink_all contents wa) as [[ea wa']|wa'],
             (ImageController.unlink_all contents wb) as [[eb wb']|wb'];
      simplify_eq/=; done.
  - destruct (Fhir.content docRef) as [contents|]; [|done].
    set (wb := match delete_reply env with Resolved _ _ => _ | Rejected _ _ => _ end).
    destruct (ImageController.unlink_all contents wb) as [[eb wb']|wb'] eqn:Hrun;
      [done|].
    intros _ contents' c fileUrl [= <-] Hin Hurl. simpl.
    by eapply (unlink_all_done contents wb wb' Hrun).
Qed.

Lemma delete_cleans_files_whatever_registry_delete_does_witness :
  assets (ImageController.delete "42" (registry_down_after_fetch stored_record)
            stored_world).2
  !! Path.basename "https://imagedb.fhir.tw/images/0123456789abcdef_thumb.png"
  = None.
Proof.
  refine (proj2 (delete_cleans_files_whatever_registry_delete_does "42"
                   (registry_down_after_fetch stored_record) stored_world 200
                   stored_record _ _) _ _
                (attached (Some "https://imagedb.fhir.tw/images/0123456789abcdef_thumb.png"))
                _ eq_refl _ eq_refl).
  - vm_compute. discriminate.
  - reflexivity.
  - vm_compute. reflexivity.
  - apply list_elem_of_In. simpl. tauto.
Defined.

(** C3 as stated fails: the fetch succeeds, the cleanup stops at the
    attachment without URL, the delete answers [serverError], and the file
    named by the second attachment's URL is still there. *)
Lemma delete_leaves_file_when_cleanup_throws :
  get_reply (registry_down_after_fetch inline_first_record)
  = Resolved 200 inline_first_record
  ∧ (ImageController.delete "42" (registry_down_after_fetch inline_first_record)
       stored_world).1
    = serverError (ErrJson false ImageController.msg_unlink_failed)
  ∧ Path.basename "https://imagedb.fhir.tw/images/0123456789abcdef.png"
    = "0123456789abcdef.png"
  ∧ assets (ImageController.delete "42"
              (registry_down_after_fetch inline_first_record) stored_world).2
    !! "0123456789abcdef.png"
    = Some Demo.png.
Proof. repeat split; by vm_compute. Qed.

(** An attachment URL that names the parent directory stops the cleanup as
    well: the path exists and cannot be unlinked. *)
Example delete_parent_directory_url :
  ImageController.delete "42"
    (registry_down_after_fetch (record_of [attached (Some "https://imagedb.fhir.tw/..")]))
    Demo.world0
  = (serverError (ErrJson false ImageController.msg_unlink_failed),
     {| assets := ∅; impressions := ∅;
        calls := [HttpGet "42"; HttpSearch "42"; HttpDelete "42"];
        log := ["Failed to fetch ClinicalImpressions:";
                "Failed to delete DocumentReference:";
                "File deletion error:"] |}).
Proof. reflexivity. Qed.

(** ** delete: the cascade over the referencing ClinicalImpressions *)

Lemma keeps_true (id : string) (info : Fhir.Info) :
  ImageController.keeps id info = true
  ↔ Fhir.reference info ≠ Some (ImageController.target id).
Proof.
  unfold ImageController.keeps. rewrite negb_true_iff, bool_decide_eq_false.
  done.
Qed.

Lemma without_detached (id : string) (ci : Fhir.ClinicalImpression) :
  detached id (ImageController.without id ci).
Proof.
  intros infos info. unfold ImageController.without. simpl.
  destruct (Fhir.supportingInfo ci) as [l|]; [|done].
  intros [= <-] Hin. apply list_elem_of_In, filter_In in Hin as [_ Hkeep].
  by apply keeps_true.
Qed.


Lemma put_impressions (env : DeleteEnv) (body : Fhir.ClinicalImpression)
    (w : World) :
  impressions (ImageController.put env body w)
  = match put_reply env body with
    | Resolved _ _ => <[Fhir.ci_id body := body]> (impressions w)
    | Rejected _ _ => impressions w
    end.
Proof. unfold ImageController.put. by destruct (put_reply env body). Qed.

(** One turn of the loop changes the store by at most one insertion of a
    detached record. *)
Lemma detach_step (id : string) (env : DeleteEnv) (w : World)
    (ci : Fhir.ClinicalImpression) :
  impressions (ImageController.detach id env w ci) = impressions w
  ∨ impressions (ImageController.detach id env w ci)
    = <[Fhir.ci_id ci := ImageController.without id ci]> (impressions w).
Proof.
  unfold ImageController.detach. destruct (Fhir.supportingInfo ci); [|by left].
  destruct (_ =? _)%nat; [by left|]. rewrite put_impressions.
  destruct (put_reply env _); [by right | by left].
Qed.

Lemma detach_inv (id : string) (env : DeleteEnv) (w : World)
    (ci : Fhir.ClinicalImpression) (m0 : gmap string Fhir.ClinicalImpression) :
  cascade_inv id m0 (impressions w) →
  cascade_inv id m0 (impressions (ImageController.detach id env w ci)).
Proof.
  intros [Hdom Hrec]. destruct (detach_step id env w ci) as [->| ->]; [done|].
  split.
  - intros k Hk. destruct (decide (Fhir.ci_id ci = k)) as [<-|Hne].
    + rewrite lookup_insert_eq. by eexists.
    + rewrite lookup_insert_ne by done. by apply Hdom.
  - intros k c. destruct (decide (Fhir.ci_id ci = k)) as [<-|Hne].
    + rewrite lookup_insert_eq. intros [= <-]. right. apply without_detached.
    + rewrite lookup_insert_ne by done. apply Hrec.
Qed.




Lemma cascade_inv_fold (id : string) (env : DeleteEnv)
    (cis : list Fhir.ClinicalImpression) (w : World)
    (m0 : gmap string Fhir.ClinicalImpression) :
  cascade_inv id m0 (impressions w) →
  cascade_inv id m0 (impressions (foldl (ImageController.detach id env) w cis)).
Proof.
  revert w. induction cis as [|c cis IH]; intros w Hinv; [done|].
  simpl. by apply IH, detach_inv.
Qed.


(** The registry's records after a delete whose fetch succeeded are those
    the cascade left. *)
Lemma delete_impressions (id : string) (env : DeleteEnv) (w : World)
    (status : Z) (docRef : Fhir.DocumentReference) :
  id ≠ "" →
  get_reply env = Resolved status docRef →
  impressions (ImageController.delete id env w).2
  = impressions (foldl (ImageController.detach id env) w
                   (ImageController.found (search_reply env))).
Proof.
  intros Hid Hget. unfold ImageController.delete.
  rewrite (truthy_nonempty id Hid). simpl. rewrite Hget.
  set (cis := ImageController.found _).
  set (w0 := match search_reply env with Resolved _ _ => _ | Rejected _ _ => _ end).
  assert (∀ l wa wb, impressions wa = impressions wb →
            impressions (foldl (ImageController.detach id env) wa l)
            = impressions (foldl (ImageController.detach id env) wb l)) as Hfold.
  { induction l as [|c l IH]; intros wa wb Hsame; [done|]. simpl. apply IH.
    unfold ImageController.detach. destruct (Fhir.supportingInfo c); [|done].
    destruct (_ =? _)%nat; [done|]. rewrite !put_impressions.
    destruct (put_reply env _); by rewrite ?Hsame. }
  set (w1 := foldl _ w0 cis).
  set (w2 := match delete_reply env with Resolved _ _ => _ | Rejected _ _ => _ end).
  assert (impressions w2 = impressions w1) as H12.
  { unfold w2. by destruct (delete_reply env). }
  assert (impressions w1 = impressions (foldl (ImageController.detach id env) w cis))
    as H1.
  { apply Hfold. unfold w0. by destruct (search_reply env). }
  destruct (Fhir.content docRef) as [contents|]; simpl; [|congruence].
  pose proof (unlink_all_impressions contents w2) as Hun.
  destruct (ImageController.unlink_all contents w2) as [[e w3]|w3];
    simpl in *; congruence.
Qed.







Example cascade_accepted_update :
  impressions (ImageController.delete "42" (cascade_env (Resolved 200 ()))
                 cascade_world).2 !! "ci1"
  = Some {| Fhir.ci_id := "ci1";
            Fhir.supportingInfo :=
              Some [ {| Fhir.reference := Some "Observation/7" |} ] |}.
Proof. by vm_compute. Qed.


(** ** Names: characters, identifiers, entries *)

Lemma chars_append (a b : string) :
  list_ascii_of_string (a +:+ b) = list_ascii_of_string a ++ list_ascii_of_string b.
Proof.
  induction a as [|c a IH]; [done|].
  change (String c a +:+ b) with (String c (a +:+ b)). simpl. by rewrite IH.
Qed.

Lemma chars_inj (a b : string) :
  list_ascii_of_string a = list_ascii_of_string b → a = b.
Proof.
  intros Hab. rewrite <- (string_of_list_ascii_of_string a),
    <- (string_of_list_ascii_of_string b). by rewrite Hab.
Qed.

Lemma take_while_all (p : ascii → bool) (l rest : list ascii) (c : ascii) :
  Forall (λ x, p x = true) l → p c = false →
  Path.take_while p (l ++ c :: rest) = l.
Proof.
  induction 1 as [|x l Hx _ IH]; intros Hc; simpl; [by rewrite Hc|].
  by rewrite Hx, IH.
Qed.

Lemma take_while_whole (p : ascii → bool) (l : list ascii) :
  Forall (λ x, p x = true) l → Path.take_while p l = l.
Proof. induction 1 as [|x l Hx _ IH]; simpl; [done|]. by rewrite Hx, IH. Qed.

Lemma drop_while_all (p : ascii → bool) (l rest : list ascii) (c : ascii) :
  Forall (λ x, p x = true) l → p c = false →
  Path.drop_while p (l ++ c :: rest) = c :: rest.
Proof.
  induction 1 as [|x l Hx _ IH]; intros Hc; simpl; [by rewrite Hc|].
  by rewrite Hx, IH.
Qed.

Lemma drop_while_whole (p : ascii → bool) (l : list ascii) :
  Forall (λ x, p x = true) l → Path.drop_while p l = [].
Proof. induction 1 as [|x l Hx _ IH]; simpl; [done|]. by rewrite Hx. Qed.

Lemma drop_while_head (p : ascii → bool) (c : ascii) (l : list ascii) :
  p c = false → Path.drop_while p (c :: l) = c :: l.
Proof. intros Hc. simpl. by rewrite Hc. Qed.

(** The last component of [dir/name], for a proper [name]. *)
Lemma last_part_rev_join (dir name : string) :
  name ≠ "" → slashless name →
  Path.last_part_rev (dir +:+ "/" +:+ name)
  = reverse (list_ascii_of_string name).
Proof.
  intros Hne Hname. unfold Path.last_part_rev.
  rewrite !chars_append, !reverse_app. simpl.
  change (list_ascii_of_string "/") with [Path.slash]. 
  rewrite reverse_singleton.
  assert (Forall (λ c, Path.is_slash c = false) (reverse (list_ascii_of_string name)))
    as Hrev by (by apply Forall_reverse).
  destruct (reverse (list_ascii_of_string name)) as [|c l] eqn:Hl.
  { destruct name; [done|]. simpl in Hl. rewrite reverse_cons in Hl.
    by destruct (reverse (list_ascii_of_string name)). }
  apply Forall_cons in Hrev as [Hc Hl'].
  rewrite <- !app_assoc. simpl. rewrite Hc. simpl. rewrite Hc. simpl.
  f_equal. apply take_while_all; [|reflexivity].
  eapply Forall_impl; [exact Hl'|]. intros x Hx. simpl. by rewrite Hx.
Qed.

Lemma basename_join (dir name : string) :
  name ≠ "" → slashless name →
  Path.basename (dir +:+ "/" +:+ name) = name.
Proof.
  intros Hne Hname. unfold Path.basename.
  rewrite last_part_rev_join by done.
  rewrite reverse_involutive. apply string_of_list_ascii_of_string.
Qed.

Lemma digit_cases (d : N) :
  d < 16 → hex_value (Hex.digit d) = d ∧ hex_char (Hex.digit d) = true.
Proof.
  intros Hd.
  assert (d = 0 ∨ d = 1 ∨ d = 2 ∨ d = 3 ∨ d = 4 ∨ d = 5 ∨ d = 6 ∨ d = 7
          ∨ d = 8 ∨ d = 9 ∨ d = 10 ∨ d = 11 ∨ d = 12 ∨ d = 13 ∨ d = 14
          ∨ d = 15) as Hcases by lia.
  repeat (destruct Hcases as [->|Hcases]; [by vm_compute|]).
  subst d. by vm_compute.
Qed.

Lemma go_chars (k : nat) (n : N) (acc : string) :
  ∃ digits,
    list_ascii_of_string (Hex.go k n acc) = digits ++ list_ascii_of_string acc
    ∧ length digits = k
    ∧ Forall (λ c, hex_char c = true) digits
    ∧ foldl (λ a c, 16 * a + hex_value c) 0 digits = n mod 16 ^ N.of_nat k.
Proof.
  revert n acc. induction k as [|k IH]; intros n acc.
  - exists []. repeat split; [constructor|]. simpl. by rewrite N.mod_1_r.
  - simpl Hex.go. destruct (IH (n / 16) (String (Hex.digit (n mod 16)) acc))
      as (digits & Hchars & Hlen & Hhex & Hval).
    assert (n mod 16 < 16) as Hd by (apply N.mod_lt; lia).
    destruct (digit_cases _ Hd) as [Hv Hc].
    exists (digits ++ [Hex.digit (n mod 16)]). split; [|split; [|split]].
    + rewrite Hchars. simpl. by rewrite <- app_assoc.
    + rewrite length_app. simpl. lia.
    + apply Forall_app. split; [done|]. by constructor.
    + rewrite foldl_app. simpl. rewrite Hval, Hv.
      replace (N.of_nat (S k)) with (N.succ (N.of_nat k)) by lia.
      rewrite N.pow_succ_r', (N.Div0.mod_mul_r n 16). lia.
Qed.

Lemma toString_chars (n : N) :
  length (list_ascii_of_string (Hex.toString n)) = 16%nat
  ∧ Forall (λ c, hex_char c = true) (list_ascii_of_string (Hex.toString n)).
Proof.
  unfold Hex.toString. destruct (go_chars 16 n "") as (digits & -> & Hlen & Hhex & _).
  simpl list_ascii_of_string. by rewrite app_nil_r.
Qed.

Lemma unhex_toString (n : N) : unhex (Hex.toString n) = n mod 2 ^ 64.
Proof.
  unfold unhex, Hex.toString.
  destruct (go_chars 16 n "") as (digits & -> & _ & _ & Hval).
  simpl list_ascii_of_string. rewrite app_nil_r. exact Hval.
Qed.

Lemma hex_char_plain (c : ascii) :
  hex_char c = true → Path.is_slash c = false ∧ Path.is_dot c = false.
Proof.
  unfold hex_char. rewrite existsb_exists. intros (x & Hin & Heq).
  apply Ascii.eqb_eq in Heq as ->. simpl in Hin.
  repeat (destruct Hin as [<-|Hin]; [by vm_compute|]). done.
Qed.

Lemma toString_plain (n : N) :
  Hex.toString n ≠ "" ∧ slashless (Hex.toString n) ∧ dotless (Hex.toString n).
Proof.
  destruct (toString_chars n) as [Hlen Hhex]. split; [|split].
  - intros Heq. by rewrite Heq in Hlen.
  - eapply Forall_impl; [exact Hhex|]. intros c Hc. by apply hex_char_plain.
  - eapply Forall_impl; [exact Hhex|]. intros c Hc. by apply hex_char_plain.
Qed.

Lemma slashless_append (a b : string) :
  slashless a → slashless b → slashless (a +:+ b).
Proof. unfold slashless. rewrite chars_append. apply Forall_app_2. Qed.

Lemma lower_ascii_slash (c : ascii) :
  Path.is_slash c = false → Path.is_slash (Js.lower_ascii c) = false.
Proof. destruct c as [[] [] [] [] [] [] [] []]; by vm_compute. Qed.

Lemma toLowerCase_slashless (s : string) :
  slashless s → slashless (Js.toLowerCase s).
Proof.
  unfold slashless. induction s as [|c s IH]; simpl; [done|].
  intros [Hc Hs]%Forall_cons. constructor; [by apply lower_ascii_slash|auto].
Qed.

Lemma take_while_Forall (p : ascii → bool) (l : list ascii) :
  Forall (λ c, p c = true) (Path.take_while p l).
Proof.
  induction l as [|c l IH]; simpl; [constructor|].
  destruct (p c) eqn:Hc; by constructor.
Qed.

Lemma take_while_keeps (P : ascii → Prop) (p : ascii → bool) (l : list ascii) :
  Forall P l → Forall P (Path.take_while p l).
Proof.
  induction 1 as [|c l Hc _ IH]; simpl; [constructor|].
  destruct (p c); by constructor.
Qed.

Lemma last_part_rev_slashless (path : string) :
  Forall (λ c, Path.is_slash c = false) (Path.last_part_rev path).
Proof.
  unfold Path.last_part_rev. eapply Forall_impl; [apply take_while_Forall|].
  intros c Hc. simpl in Hc. by apply negb_true_iff in Hc.
Qed.

Lemma extname_slashless (path : string) : slashless (Path.extname path).
Proof.
  unfold slashless, Path.extname.
  pose proof (last_part_rev_slashless path) as Hpart.
  set (part := Path.last_part_rev path) in *.
  assert (Forall (λ c, Path.is_slash c = false)
            (list_ascii_of_string
               (string_of_list_ascii
                  (Path.dot :: reverse (Path.take_while (λ c, negb (Path.is_dot c)) part)))))
    as Hdotted.
  { rewrite list_ascii_of_string_of_list_ascii. constructor; [done|].
    apply Forall_reverse. by apply take_while_keeps. }
  destruct (Path.drop_while _ part) as [|c0 before]; [constructor|].
  destruct before as [|c1 [|c2 before]]; [constructor| |exact Hdotted].
  destruct (Path.take_while _ part) eqn:Htake; [|exact Hdotted].
  destruct (Path.is_dot c1); [constructor|]. by repeat constructor.
Qed.

Lemma resolves_to_directory_short (name : string) :
  Fs.resolves_to_directory name = true →
  (length (list_ascii_of_string name) ≤ 2)%nat.
Proof.
  unfold Fs.resolves_to_directory. rewrite !orb_true_iff.
  intros [[H|H]|H]; apply String.eqb_eq in H as ->; simpl; lia.
Qed.

Lemma has_slash_slashless (name : string) :
  slashless name → Fs.has_slash name = false.
Proof.
  unfold slashless, Fs.has_slash. induction 1 as [|c l Hc _ IH]; simpl; [done|].
  by rewrite Hc.
Qed.

(** A name that begins with the sixteen digits of an identifier and has no
    separator is a proper directory entry. *)
Lemma entry_name_prefixed (n : N) (rest : string) :
  slashless rest → Fs.entry_name (Hex.toString n +:+ rest) = true.
Proof.
  intros Hrest. unfold Fs.entry_name. apply andb_true_iff. split.
  - apply negb_true_iff. destruct (Fs.resolves_to_directory _) eqn:Hdir; [|done].
    apply resolves_to_directory_short in Hdir. rewrite chars_append, length_app in Hdir.
    destruct (toString_chars n) as [Hlen _]. lia.
  - apply negb_true_iff, has_slash_slashless, slashless_append; [|done].
    apply toString_plain.
Qed.

Lemma entry_name_proper (name : string) :
  Fs.entry_name name = true → name ≠ "" ∧ slashless name.
Proof.
  unfold Fs.entry_name. intros [Hdir Hslash]%andb_true_iff. split.
  - intros ->. done.
  - apply negb_true_iff in Hslash. unfold Fs.has_slash, slashless in *.
    induction (list_ascii_of_string name) as [|c l IH]; [constructor|].
    simpl in Hslash. apply orb_false_iff in Hslash as [? ?]. constructor; auto.
Qed.

(** [path.parse] of [<name>.<ext>] for plain parts. *)
Lemma parse_dotted (name ext : string) :
  name ≠ "" → slashless name → dotless name →
  ext ≠ "" → slashless ext → dotless ext →
  Path.parse_name (name +:+ "." +:+ ext) = name
  ∧ Path.parse_ext (name +:+ "." +:+ ext) = "." +:+ ext.
Proof.
  intros Hn Hns Hnd He Hes Hed.
  set (full := name +:+ "." +:+ ext).
  assert (list_ascii_of_string full
          = list_ascii_of_string name ++ Path.dot :: list_ascii_of_string ext) as Hfull.
  { unfold full. by rewrite !chars_append. }
  assert (Path.last_part_rev full = reverse (list_ascii_of_string full)) as Hpart.
  { unfold Path.last_part_rev.
    assert (Forall (λ c, Path.is_slash c = false) (reverse (list_ascii_of_string full)))
      as Hall.
    { apply Forall_reverse. rewrite Hfull. apply Forall_app_2; [done|].
      by constructor. }
    destruct (reverse (list_ascii_of_string full)) as [|c l] eqn:Hl; [done|].
    apply Forall_cons in Hall as [Hc Hl']. rewrite drop_while_head by done.
    apply take_while_whole. constructor; [by rewrite Hc|].
    eapply Forall_impl; [exact Hl'|]. intros x Hx. simpl. by rewrite Hx. }
  assert (Path.extname full = "." +:+ ext) as Hext.
  { unfold Path.extname. rewrite Hpart, Hfull, reverse_app, reverse_cons.
    rewrite <- app_assoc. simpl.
    assert (Forall (λ c, negb (Path.is_dot c) = true)
              (reverse (list_ascii_of_string ext))) as Hrev.
    { apply Forall_reverse. eapply Forall_impl; [exact Hed|].
      intros x Hx. simpl in *. by rewrite Hx. }
    rewrite (take_while_all _ _ _ _ Hrev), (drop_while_all _ _ _ _ Hrev) by done.
    rewrite reverse_involutive.
    destruct (reverse (list_ascii_of_string name)) as [|c l] eqn:Hname.
    { destruct name; [done|]. simpl in Hname. rewrite reverse_cons in Hname.
      by destruct (reverse (list_ascii_of_string name)). }
    destruct (reverse (list_ascii_of_string ext)) as [|c' l'] eqn:Hrext.
    { destruct ext; [done|]. simpl in Hrext. rewrite reverse_cons in Hrext.
      by destruct (reverse (list_ascii_of_string ext)). }
    simpl. rewrite string_of_list_ascii_of_string. by destruct l. }
  split; [|exact Hext].
  unfold Path.parse_name, Path.basename. rewrite Hpart, reverse_involutive.
  rewrite string_of_list_ascii_of_string, Hext.
  apply chars_inj. rewrite list_ascii_of_string_of_list_ascii, Hfull.
  replace (String.length ("." +:+ ext))
    with (S (length (list_ascii_of_string ext))).
  2:{ change ("." +:+ ext) with (String Path.dot ext). simpl. f_equal.
      clear. induction ext; simpl; auto. }
  rewrite length_app. simpl.
  replace (length (list_ascii_of_string name) + S (length (list_ascii_of_string ext))
           - S (length (list_ascii_of_string ext)))%nat
    with (length (list_ascii_of_string name) + 0)%nat by lia.
  by rewrite take_app_add, take_0, app_nil_r.
Qed.

Lemma allowed_format_plain (format : string) :
  format ∈ ImageController.allowed_formats →
  format ≠ "" ∧ slashless format ∧ dotless format.
Proof.
  intros Hin. apply list_elem_of_In in Hin. simpl in Hin.
  repeat (destruct Hin as [<-|Hin];
          [split; [done|split; repeat constructor]|]).
  done.
Qed.

(** ** upload: what is written and when *)

Ltac run_upload Himage Hsize Hlen :=
  unfold ImageController.upload;
  rewrite (skipper_accepts _ _ _ Hsize), Himage;
  rewrite (proj2 (N.eqb_neq _ _) Hlen);
  rewrite filenameFull_shape.

Lemma classify_decoded `{sharp : Sharp} (fileBuffer : Buffer) (format : string) :
  metadata fileBuffer = Some format →
  format ∈ ImageController.allowed_formats →
  ImageController.classify fileBuffer = (Some format, true).
Proof.
  intros Hdecode Hin. unfold ImageController.classify. rewrite Hdecode.
  by rewrite bool_decide_eq_true_2.
Qed.

Lemma classify_not_image `{sharp : Sharp} (fileBuffer : Buffer) :
  (ImageController.classify fileBuffer).2 = false →
  detected_format (ImageController.classify fileBuffer) = None.
Proof. unfold detected_format. by intros ->. Qed.

(** The thumbnail's name, from [path.parse] of the stored name. *)
Lemma thumbnail_name (n : N) (format : string) :
  format ∈ ImageController.allowed_formats →
  ImageController.thumbnailFilename (Hex.toString n +:+ "." +:+ format)
  = Hex.toString n +:+ "_thumb." +:+ format.
Proof.
  intros Hin. destruct (allowed_format_plain format Hin) as (Hf & Hfs & Hfd).
  destruct (toString_plain n) as (Hn & Hns & Hnd).
  unfold ImageController.thumbnailFilename.
  destruct (parse_dotted _ _ Hn Hns Hnd Hf Hfs Hfd) as [-> ->].
  reflexivity.
Qed.

(** X1. For the sixteen-digit identifier of any eight random bytes and any
    format of the allow-list, the thumbnail of [<id>.<format>] is named
    [<id>_thumb.<format>]: [path.parse] splits the name at its only dot.
    That name is a proper directory entry and differs from the name of the
    original, so the thumbnail never overwrites it. *)
Theorem thumbnail_of_image_name (n : N) (format : string) :
  format ∈ ImageController.allowed_formats →
  ImageController.thumbnailFilename (Hex.toString n +:+ "." +:+ format)
  = Hex.toString n +:+ "_thumb." +:+ format ∧
  ImageController.thumbnailFilename (Hex.toString n +:+ "." +:+ format)
  ≠ Hex.toString n +:+ "." +:+ format ∧
  Fs.entry_name
    (ImageController.thumbnailFilename (Hex.toString n +:+ "." +:+ format))
  = true.
Proof.
  intros Hin. rewrite (thumbnail_name _ _ Hin).
  split; [done|]. split.
  - intros Heq. apply (inj (String.app (Hex.toString n))) in Heq.
    discriminate Heq.
  - apply entry_name_prefixed.
    destruct (allowed_format_plain format Hin) as (_ & Hs & _).
    unfold slashless. rewrite chars_append. apply Forall_app_2; [|done].
    by repeat constructor.
Qed.

Lemma thumbnail_of_image_name_witness :
  ImageController.thumbnailFilename (Hex.toString 81985529216486895 +:+ "." +:+ "webp")
  = Hex.toString 81985529216486895 +:+ "_thumb." +:+ "webp".
Proof.
  apply thumbnail_of_image_name. apply list_elem_of_In. simpl. tauto.
Defined.

Lemma stored_filename_entry (n : N) (detected original : option string) :
  (∀ format, detected = Some format → format ∈ ImageController.allowed_formats) →
  Fs.entry_name (stored_filename (Hex.toString n) detected original) = true.
Proof.
  intros Hdetected. unfold stored_filename. destruct detected as [format|].
  - apply entry_name_prefixed.
    destruct (allowed_format_plain format (Hdetected _ eq_refl)) as (_ & Hs & _).
    change ("." +:+ format) with (String Path.dot format). by constructor.
  - case_decide as Hext.
    + rewrite <- (append_empty_r (Hex.toString n)). apply entry_name_prefixed.
      constructor.
    + apply entry_name_prefixed. unfold spec_extension.
      pose proof (toLowerCase_slashless _ (extname_slashless (Js.or_else original "")))
        as Hlow.
      destruct (Js.toLowerCase _) as [|c ext]; [by repeat constructor|].
      apply Forall_cons in Hlow as [_ Hlow]. by constructor.
Qed.

Lemma detected_allowed `{sharp : Sharp} (fileBuffer : Buffer) (format : string) :
  detected_format (ImageController.classify fileBuffer) = Some format →
  format ∈ ImageController.allowed_formats
  ∧ ImageController.classify fileBuffer = (Some format, true).
Proof.
  unfold detected_format.
  destruct (ImageController.classify fileBuffer).2 eqn:Himg; [|done].
  destruct (classify_image_format fileBuffer Himg) as (f & _ & Hin & Hc).
  rewrite Hc. simpl. by intros [= <-].
Qed.

Lemma imageUrl_basename (name : string) :
  Fs.entry_name name = true →
  Path.basename (ImageController.imageUrl name) = name.
Proof.
  intros Hname. destruct (entry_name_proper name Hname) as [Hne Hs].
  change (ImageController.imageUrl name)
    with ((Config.apiBaseUrl +:+ "/images") +:+ "/" +:+ name).
  by apply basename_join.
Qed.

(** X2. An upload never removes a file: whatever it answers, every name the
    asset directory had before is still there afterwards (a file of the same
    name may have been overwritten), and the registry's ClinicalImpressions
    are as they were. *)
Theorem upload_keeps_existing_files `{sharp : Sharp} (at_limit : bool)
    (req : UploadRequest) (env : UploadEnv) (w : World) (name : string) :
  is_Some (assets w !! name) →
  is_Some (assets (ImageController.upload at_limit req env w).2 !! name)
  ∧ impressions (ImageController.upload at_limit req env w).2 = impressions w.
Proof.
  intros Hname. unfold ImageController.upload.
  destruct (Skipper.upload _ _ _) as [err|[|file0 rest]]; [done..|].
  destruct (_ =? 0); [done|].
  set (w0 := emit SharpMetadata w).
  assert (∀ full data w1, is_Some (assets w1 !! name) →
            is_Some (assets (Fs.writeFile full data w1) !! name)) as Hwrite.
  { intros full data w1 Hw1. simpl. destruct (decide (full = name)) as [->|Hne].
    - rewrite lookup_insert_eq. by eexists.
    - by rewrite lookup_insert_ne. }
  assert (is_Some (assets (reached (ImageController.store
            (ImageController.classify (Skipper.fd file0)).2 (Skipper.fd file0)
            (ImageController.filenameFull (Hex.toString (randomBytes env))
               (ImageController.classify (Skipper.fd file0)).2
               (ImageController.classify (Skipper.fd file0)).1
               (Skipper.filename file0)) w0)) !! name)
          ∧ impressions (reached (ImageController.store
            (ImageController.classify (Skipper.fd file0)).2 (Skipper.fd file0)
            (ImageController.filenameFull (Hex.toString (randomBytes env))
               (ImageController.classify (Skipper.fd file0)).2
               (ImageController.classify (Skipper.fd file0)).1
               (Skipper.filename file0)) w0)) = impressions w) as Hstore.
  { unfold ImageController.store.
    destruct (ImageController.classify (Skipper.fd file0)).2.
    - destruct (toFile _); [|done]. destruct (resize_toFile _ _ _); simpl.
      + split; [|done]. apply (Hwrite _ _ (Fs.writeFile _ _ w0)). by apply Hwrite.
      + split; [|done]. by apply (Hwrite _ _ w0).
    - split; [|done]. by apply (Hwrite _ _ w0). }
  destruct (ImageController.store _ _ _ _) as [[err w1]|w1]; [exact Hstore|].
  by destruct (post_reply env).
Qed.

Lemma upload_keeps_existing_files_witness :
  is_Some (assets (ImageController.upload (sharp := Demo.sharp) false text_request
                     created_env stored_world).2 !! "0123456789abcdef.png").
Proof.
  refine (proj1 (upload_keeps_existing_files (sharp := Demo.sharp) false
                   text_request created_env stored_world
                   "0123456789abcdef.png" _)).
  eexists. vm_compute. reflexivity.
Defined.



(** X4. For a payload decoded as an allow-listed image, when both sharp
    writes succeed, the upload leaves exactly two new files: what
    [toFile] produced under [<id>.<format>] and what the 128 by 128 resize
    produced under [<id>_thumb.<format>], written in that order before the
    POST. *)
Theorem upload_image_writes_original_and_thumbnail `{sharp : Sharp}
    (at_limit : bool) (req : UploadRequest) (env : UploadEnv) (w : World)
    (file0 : Skipper.File) (rest : list Skipper.File)
    (format : string) (original thumb : Buffer) :
  image req = file0 :: rest →
  Skipper.upstream_size (image req) < ImageController.maxBytes →
  buf_length (Skipper.fd file0) ≠ 0 →
  metadata (Skipper.fd file0) = Some format →
  format ∈ ImageController.allowed_formats →
  toFile (Skipper.fd file0) = Some original →
  resize_toFile 128 128 (Skipper.fd file0) = Some thumb →
  let uniqueId := Hex.toString (randomBytes env) in
  assets (ImageController.upload at_limit req env w).2
  = <[uniqueId +:+ "_thumb." +:+ format := thumb]>
      (<[uniqueId +:+ "." +:+ format := original]> (assets w)) ∧
  ∃ doc,
    calls (ImageController.upload at_limit req env w).2
    = calls w ++ [SharpMetadata;
                  FsWrite (uniqueId +:+ "." +:+ format);
                  FsWrite (uniqueId +:+ "_thumb." +:+ format);
                  HttpPost doc].
Proof.
  intros Himage Hsize Hlen Hdecode Hin Hfull Hthumb uniqueId.
  run_upload Himage Hsize Hlen.
  rewrite (classify_decoded _ _ Hdecode Hin).
  unfold detected_format, stored_filename, ImageController.store. cbn [fst snd].
  rewrite Hfull, Hthumb, (thumbnail_name _ _ Hin). fold uniqueId.
  split; [by destruct (post_reply env)|].
  destruct (post_reply env); simpl; eexists; by rewrite <- !(assoc (++)).
Qed.

Lemma upload_image_writes_original_and_thumbnail_witness :
  assets png_world
  = <["0123456789abcdef" +:+ "_thumb." +:+ "png" :=
        {| buf_length := 128 * 128; buf_byte := buf_byte Demo.png |}]>
      (<["0123456789abcdef" +:+ "." +:+ "png" := Demo.png]> ∅).
Proof.
  refine (proj1 (upload_image_writes_original_and_thumbnail (sharp := Demo.sharp)
                   false png_request created_env Demo.world0
                   (Demo.file "Photo.JPG" Demo.png) [] "png" Demo.png _
                   eq_refl _ _ eq_refl _ eq_refl eq_refl)).
  - vm_compute. reflexivity.
  - vm_compute. discriminate.
  - apply list_elem_of_In. simpl. tauto.
Defined.

(** X5. When a sharp write of an image is rejected, the upload answers
    [serverError] with the thrown error and never posts to the registry; if
    it was the thumbnail that failed, the original written just before stays
    in the directory. *)
Theorem upload_storage_failure_is_fatal `{sharp : Sharp}
    (at_limit : bool) (req : UploadRequest) (env : UploadEnv) (w : World)
    (file0 : Skipper.File) (rest : list Skipper.File) (format : string) :
  image req = file0 :: rest →
  Skipper.upstream_size (image req) < ImageController.maxBytes →
  buf_length (Skipper.fd file0) ≠ 0 →
  metadata (Skipper.fd file0) = Some format →
  format ∈ ImageController.allowed_formats →
  toFile (Skipper.fd file0) = None
  ∨ resize_toFile 128 128 (Skipper.fd file0) = None →
  (ImageController.upload at_limit req env w).1
  = serverError (ErrThrown SharpError) ∧
  (∀ doc, HttpPost doc ∈ calls (ImageController.upload at_limit req env w).2 →
          HttpPost doc ∈ calls w) ∧
  assets (ImageController.upload at_limit req env w).2
  = match toFile (Skipper.fd file0) with
    | Some original =>
        <[Hex.toString (randomBytes env) +:+ "." +:+ format := original]> (assets w)
    | None => assets w
    end.
Proof.
  intros Himage Hsize Hlen Hdecode Hin Hfail.
  run_upload Himage Hsize Hlen.
  rewrite (classify_decoded _ _ Hdecode Hin).
  unfold detected_format, stored_filename, ImageController.store. cbn [fst snd].
  assert (∀ l doc, HttpPost doc ∈ calls w ++ SharpMetadata :: l →
            Forall (λ e, ∃ name, e = FsWrite name) l → HttpPost doc ∈ calls w)
    as Hposts.
  { intros l doc Hdoc Hl. apply elem_of_app in Hdoc as [?|Hdoc]; [done|].
    apply elem_of_cons in Hdoc as [?|Hdoc]; [done|].
    rewrite Forall_forall in Hl. by destruct (Hl _ Hdoc). }
  destruct (toFile (Skipper.fd file0)) as [original|] eqn:Hfull.
  - destruct Hfail as [?|Hthumb]; [done|]. rewrite Hthumb. simpl.
    split; [done|]. split; [|done]. intros doc Hdoc.
    rewrite <- (assoc (++)) in Hdoc. apply (Hposts _ _ Hdoc).
    repeat constructor. by eexists.
  - simpl. split; [done|]. split; [|done]. intros doc Hdoc.
    apply (Hposts [] _ Hdoc). constructor.
Qed.

Lemma upload_storage_failure_is_fatal_witness :
  (ImageController.upload (sharp := thumbless_sharp) false png_request
     created_env Demo.world0).1
  = serverError (ErrThrown SharpError).
Proof.
  refine (proj1 (upload_storage_failure_is_fatal (sharp := thumbless_sharp)
                   false png_request created_env Demo.world0
                   (Demo.file "Photo.JPG" Demo.png) [] "png"
                   eq_refl _ _ eq_refl _ _)).
  - vm_compute. reflexivity.
  - vm_compute. discriminate.
  - apply list_elem_of_In. simpl. tauto.
  - right. reflexivity.
Defined.

(** ** delete: cleanup, order of effects, updates *)

Ltac run_delete Hid Hget :=
  unfold ImageController.delete;
  rewrite (truthy_nonempty _ Hid); cbn [negb];
  rewrite Hget.



(** Files no attachment names are out of the loop's reach, thrown or not. *)
Lemma unlink_all_frame (contents : list Fhir.Content) (w : World) (name : string) :
  name ∉ local_names contents →
  assets (reached (ImageController.unlink_all contents w)) !! name
  = assets w !! name.
Proof.
  revert w. induction contents as [|c rest IH]; intros w Hname; [done|].
  simpl. unfold local_names in Hname. simpl in Hname.
  destruct (Fhir.attachment c ≫= Fhir.url) as [u|] eqn:Hurl; [|done].
  simpl in Hname. fold (local_names rest) in Hname.
  apply not_elem_of_cons in Hname as [Hne Hrest].
  destruct (Fs.existsSync _ w); [|by apply IH].
  destruct (Fs.unlink _ w) as [err|w1] eqn:Hunlink; [done|].
  rewrite IH by done. apply unlink_inr in Hunlink as [-> _].
  by rewrite lookup_delete_ne.
Qed.

Lemma delete_fetched (id : string) (env : DeleteEnv) (w : World)
    (status : Z) (docRef : Fhir.DocumentReference) :
  id ≠ "" →
  get_reply env = Resolved status docRef →
  ImageController.delete id env w
  = match Fhir.content docRef with
    | None =>
        (serverError (ErrJson false ImageController.msg_unlink_failed),
         log_error "File deletion error:" (before_cleanup id env w))
    | Some contents =>
        match ImageController.unlink_all contents (before_cleanup id env w) with
        | inl (_, w') =>
            (serverError (ErrJson false ImageController.msg_unlink_failed),
             log_error "File deletion error:" w')
        | inr w' =>
            (ok {| done_success := true;
                   done_message := ImageController.msg_deleted |}, w')
        end
    end.
Proof. intros Hid Hget. run_delete Hid Hget. reflexivity. Qed.

(** The world the cleanup starts from has the files the delete found. *)
Lemma before_cleanup_assets (id : string) (env : DeleteEnv) (w : World) :
  assets (before_cleanup id env w) = assets w.
Proof.
  unfold before_cleanup. destruct (delete_reply env); simpl;
    rewrite cascade_assets; by destruct (search_reply env).
Qed.



(** X7. Whatever a delete answers, a file that no attachment URL of the
    fetched record names by its basename is left as it was. *)
Theorem delete_leaves_unnamed_files (id : string) (env : DeleteEnv) (w : World)
    (name : string) :
  (∀ status docRef contents,
     get_reply env = Resolved status docRef →
     Fhir.content docRef = Some contents →
     name ∉ local_names contents) →
  assets (ImageController.delete id env w).2 !! name = assets w !! name.
Proof.
  intros Hname. destruct (decide (id = "")) as [->|Hid]; [done|].
  destruct (get_reply env) as [status docRef|response message] eqn:Hget.
  2:{ unfold ImageController.delete. rewrite (truthy_nonempty _ Hid), Hget.
      cbn [negb]. by case_bool_decide. }
  rewrite (delete_fetched _ _ _ _ _ Hid Hget).
  pose proof (before_cleanup_assets id env w) as Hassets.
  set (w2 := before_cleanup id env w) in *.
  destruct (Fhir.content docRef) as [contents|] eqn:Hcontent; simpl;
    [|by rewrite Hassets].
  pose proof (unlink_all_frame contents w2 name (Hname _ _ _ eq_refl Hcontent)) as Hframe.
  destruct (ImageController.unlink_all contents w2) as [[err w3]|w3];
    simpl in *; by rewrite Hframe, Hassets.
Qed.

Lemma delete_leaves_unnamed_files_witness :
  assets (ImageController.delete "42"
            (registry_down_after_fetch
               (record_of [attached (Some "https://imagedb.fhir.tw/images/0123456789abcdef.png")]))
            stored_world).2 !! "0123456789abcdef_thumb.png"
  = Some Demo.png.
Proof.
  refine (delete_leaves_unnamed_files "42" _ stored_world
            "0123456789abcdef_thumb.png" _).
  intros status docRef contents [= _ <-] [= <-].
  vm_compute. intros Hin. apply list_elem_of_In in Hin. simpl in Hin.
  destruct Hin as [Hin|[]]. discriminate.
Defined.

(** X8. A delete answers [badRequest] with [E_INVALID_ID] exactly when the
    id is empty, and then it has touched nothing and called nobody. *)
Theorem delete_invalid_id_iff_empty (id : string) (env : DeleteEnv) (w : World) :
  ((ImageController.delete id env w).1
   = badRequest "E_INVALID_ID" ImageController.msg_invalid_id ↔ id = "") ∧
  (id = "" → (ImageController.delete id env w).2 = w).
Proof.
  destruct (decide (id = "")) as [->|Hid]; [done|].
  split; [|done]. split; [|done]. unfold ImageController.delete.
  rewrite (truthy_nonempty _ Hid). cbn [negb].
  destruct (get_reply env); [|by case_bool_decide].
  destruct (Fhir.content _); [|done].
  by destruct (ImageController.unlink_all _ _) as [[? ?]|?].
Qed.

Lemma filter_shorter {A} (f : A → bool) (l : list A) :
  length (List.filter f l) ≠ length l →
  (length (List.filter f l) < length l)%nat ∧ ∃ x, x ∈ l ∧ f x = false.
Proof.
  intros Hlen. split.
  { pose proof (List.filter_length_le f l). lia. }
  induction l as [|a l IH]; [done|]. simpl in Hlen.
  destruct (f a) eqn:Hfa.
  - destruct IH as (x & Hx & Hfx); [simpl in Hlen; lia|].
    exists x. split; [by apply elem_of_cons; right|done].
  - exists a. split; [apply elem_of_cons; by left|done].
Qed.

Lemma filter_sublist_bool {A} (f : A → bool) (l : list A) :
  sublist (List.filter f l) l.
Proof.
  induction l as [|a l IH]; simpl; [constructor|].
  destruct (f a); by constructor.
Qed.

(** What a turn of the cascade sends: nothing, or the one update of a
    resource whose list shrinks. *)
Lemma detach_sends (id : string) (env : DeleteEnv) (w : World)
    (ci : Fhir.ClinicalImpression) :
  calls (ImageController.detach id env w ci) = calls w
  ∨ calls (ImageController.detach id env w ci)
    = calls w ++ [HttpPut (ImageController.without id ci)]
    ∧ ∃ infos, Fhir.supportingInfo ci = Some infos
               ∧ (length (List.filter (ImageController.keeps id) infos)
                  < length infos)%nat.
Proof.
  unfold ImageController.detach.
  destruct (Fhir.supportingInfo ci) as [infos|] eqn:Hinfos; [|by left].
  destruct (_ =? _)%nat eqn:Hlen; [by left|]. right.
  apply Nat.eqb_neq in Hlen. split.
  - unfold ImageController.put. by destruct (put_reply env _).
  - exists infos. split; [done|]. by apply filter_shorter.
Qed.

Lemma cascade_sends (id : string) (env : DeleteEnv)
    (cis : list Fhir.ClinicalImpression) (w : World) :
  ∃ puts,
    calls (foldl (ImageController.detach id env) w cis) = calls w ++ puts
    ∧ Forall (λ e, ∃ ci infos,
                 ci ∈ cis ∧ e = HttpPut (ImageController.without id ci)
                 ∧ Fhir.supportingInfo ci = Some infos
                 ∧ (length (List.filter (ImageController.keeps id) infos)
                    < length infos)%nat) puts.
Proof.
  revert w. induction cis as [|c cis IH]; intros w.
  - exists []. split; [by rewrite app_nil_r|constructor].
  - simpl. destruct (IH (ImageController.detach id env w c)) as (puts & -> & Hputs).
    assert (Forall (λ e, ∃ ci infos,
                 ci ∈ c :: cis ∧ e = HttpPut (ImageController.without id ci)
                 ∧ Fhir.supportingInfo ci = Some infos
                 ∧ (length (List.filter (ImageController.keeps id) infos)
                    < length infos)%nat) puts) as Hputs'.
    { eapply Forall_impl; [exact Hputs|]. intros e (ci & infos & Hin & ?).
      exists ci, infos. split; [by apply elem_of_cons; right|done]. }
    destruct (detach_sends id env w c) as [->|[-> (infos & Hinfos & Hlen)]].
    + by exists puts.
    + exists (HttpPut (ImageController.without id c) :: puts).
      split; [by rewrite <- (assoc (++))|]. constructor; [|done].
      exists c, infos. split; [apply elem_of_cons; by left|done].
Qed.

Lemma unlink_all_sends (contents : list Fhir.Content) (w : World) :
  ∃ names,
    calls (reached (ImageController.unlink_all contents w))
    = calls w ++ (FsUnlink <$> names)
    ∧ names ⊆ local_names contents.
Proof.
  revert w. induction contents as [|c rest IH]; intros w.
  - exists []. split; [by rewrite app_nil_r|done].
  - simpl. unfold local_names. simpl.
    destruct (Fhir.attachment c ≫= Fhir.url) as [u|] eqn:Hurl.
    2:{ exists []. split; [by rewrite app_nil_r|]. by intros ? ?%elem_of_nil. }
    simpl. fold (local_names rest).
    destruct (Fs.existsSync _ w).
    + unfold Fs.unlink. destruct (Fs.resolves_to_directory _).
      { exists []. split; [by rewrite app_nil_r|]. by intros ? ?%elem_of_nil. }
      destruct (assets w !! _).
      2:{ exists []. split; [by rewrite app_nil_r|]. by intros ? ?%elem_of_nil. }
      match goal with |- context [ImageController.unlink_all rest ?w1] =>
        destruct (IH w1) as (names & -> & Hsub) end.
      exists (Path.basename u :: names). split.
      * simpl. by rewrite <- (assoc (++)).
      * set_solver.
    + destruct (IH w) as (names & -> & Hsub). exists names. split; [done|].
      set_solver.
Qed.

(** The calls behind a delete when its cleanup starts. *)
Lemma before_cleanup_calls (id : string) (env : DeleteEnv) (w : World) :
  ∃ puts,
    calls (before_cleanup id env w)
    = calls w ++ [HttpGet id; HttpSearch id] ++ puts ++ [HttpDelete id]
    ∧ Forall (λ e, ∃ ci infos,
                 ci ∈ ImageController.found (search_reply env)
                 ∧ e = HttpPut (ImageController.without id ci)
                 ∧ Fhir.supportingInfo ci = Some infos
                 ∧ (length (List.filter (ImageController.keeps id) infos)
                    < length infos)%nat) puts.
Proof.
  unfold before_cleanup.
  set (w0 := match search_reply env with Resolved _ _ => _ | Rejected _ _ => _ end).
  assert (calls w0 = calls w ++ [HttpGet id; HttpSearch id]) as H0.
  { unfold w0. destruct (search_reply env); simpl; by simplify_list_eq. }
  destruct (cascade_sends id env (ImageController.found (search_reply env)) w0)
    as (puts & H1 & Hputs).
  exists puts. split; [|done].
  destruct (delete_reply env); simpl; rewrite H1, H0; by simplify_list_eq.
Qed.



Example delete_calls_in_full :
  calls (ImageController.delete "42" (cascade_env (Resolved 200 ()))
           cascade_world).2
  = [HttpGet "42"; HttpSearch "42";
     HttpPut {| Fhir.ci_id := "ci1";
                Fhir.supportingInfo :=
                  Some [ {| Fhir.reference := Some "Observation/7" |} ] |};
     HttpDelete "42";
     FsUnlink "0123456789abcdef.png"; FsUnlink "0123456789abcdef_thumb.png"].
Proof. by vm_compute. Qed.

Lemma delete_calls_cases (id : string) (env : DeleteEnv) (w : World) (e : Event) :
  e ∈ calls (ImageController.delete id env w).2 →
  e ∈ calls w ∨ e = HttpGet id ∨ e = HttpSearch id ∨ e = HttpDelete id
  ∨ is_unlink e
  ∨ ∃ ci infos,
      ci ∈ ImageController.found (search_reply env)
      ∧ e = HttpPut (ImageController.without id ci)
      ∧ Fhir.supportingInfo ci = Some infos
      ∧ (length (List.filter (ImageController.keeps id) infos) < length infos)%nat.
Proof.
  destruct (decide (id = "")) as [->|Hid]; [by left|].
  destruct (get_reply env) as [status docRef|response message] eqn:Hget.
  - rewrite (delete_fetched _ _ _ _ _ Hid Hget).
    destruct (before_cleanup_calls id env w) as (puts & H2 & Hputs).
    set (w2 := before_cleanup id env w) in *.
    assert (e ∈ calls w2 → e ∈ calls w ∨ e = HttpGet id ∨ e = HttpSearch id
              ∨ e = HttpDelete id ∨ is_unlink e
              ∨ ∃ ci infos,
                  ci ∈ ImageController.found (search_reply env)
                  ∧ e = HttpPut (ImageController.without id ci)
                  ∧ Fhir.supportingInfo ci = Some infos
                  ∧ (length (List.filter (ImageController.keeps id) infos)
                     < length infos)%nat) as Hw2.
    { rewrite H2, !elem_of_app, !elem_of_cons, !elem_of_nil.
      rewrite Forall_forall in Hputs. naive_solver. }
    destruct (Fhir.content docRef) as [contents|]; simpl; [|exact Hw2].
    destruct (unlink_all_sends contents w2) as (names & H3 & _).
    destruct (ImageController.unlink_all contents w2) as [[err w3]|w3];
      unfold reached in H3; simpl; rewrite H3, elem_of_app, list_elem_of_fmap;
      (intros [?|(name & -> & _)]; [by apply Hw2|]);
      do 4 right; left; by eexists.
  - unfold ImageController.delete. rewrite (truthy_nonempty _ Hid), Hget.
    cbn [negb]. case_bool_decide; simpl;
      rewrite elem_of_app, list_elem_of_singleton; naive_solver.
Qed.

(** X10. A delete sends an update only for a dependent the search returned
    whose reference list gets shorter, to that dependent's id, and the list
    sent is the original one, in order, without the references to
    [DocumentReference/<id>] and with every other reference. *)
Theorem delete_updates_only_what_changes (id : string) (env : DeleteEnv)
    (w : World) (body : Fhir.ClinicalImpression) :
  HttpPut body ∈ calls (ImageController.delete id env w).2 →
  HttpPut body ∈ calls w
  ∨ ∃ ci infos kept,
      ci ∈ ImageController.found (search_reply env)
      ∧ Fhir.supportingInfo ci = Some infos
      ∧ Fhir.ci_id body = Fhir.ci_id ci
      ∧ Fhir.supportingInfo body = Some kept
      ∧ sublist kept infos
      ∧ (length kept < length infos)%nat
      ∧ ∀ info, info ∈ kept
                ↔ info ∈ infos
                  ∧ Fhir.reference info ≠ Some (ImageController.target id).
Proof.
  intros Hin.
  destruct (delete_calls_cases _ _ _ _ Hin)
    as [?|[?|[?|[?|[[? ?]|(ci & infos & Hci & [= ->] & Hinfos & Hlen)]]]]];
    try done; [by left|]. right.
  exists ci, infos, (List.filter (ImageController.keeps id) infos).
  split; [done|]. split; [done|]. split; [done|].
  split; [unfold ImageController.without; simpl; by rewrite Hinfos|].
  split; [apply filter_sublist_bool|]. split; [done|].
  intros info. rewrite !list_elem_of_In, filter_In, keeps_true. done.
Qed.

Lemma delete_updates_only_what_changes_witness :
  HttpPut (ImageController.without "42" impression_1) ∈ calls cascade_world
  ∨ ∃ ci infos kept,
      ci ∈ ImageController.found (search_reply (cascade_env (Resolved 200 ())))
      ∧ Fhir.supportingInfo ci = Some infos
      ∧ Fhir.ci_id (ImageController.without "42" impression_1) = Fhir.ci_id ci
      ∧ Fhir.supportingInfo (ImageController.without "42" impression_1) = Some kept
      ∧ sublist kept infos
      ∧ (length kept < length infos)%nat
      ∧ ∀ info, info ∈ kept
                ↔ info ∈ infos
                  ∧ Fhir.reference info ≠ Some (ImageController.target "42").
Proof.
  refine (delete_updates_only_what_changes "42" (cascade_env (Resolved 200 ()))
            cascade_world (ImageController.without "42" impression_1) _).
  apply list_elem_of_In. vm_compute. tauto.
Defined.

(** X11. When the search fails, or returns no entries, the delete leaves
    the registry's ClinicalImpressions alone, sends no update, and answers
    what it would answer for an empty search result. *)
Theorem delete_goes_on_without_dependents (id : string) (env : DeleteEnv)
    (w : World) (status : Z) (docRef : Fhir.DocumentReference) :
  id ≠ "" →
  get_reply env = Resolved status docRef →
  ImageController.found (search_reply env) = [] →
  impressions (ImageController.delete id env w).2 = impressions w ∧
  (∀ body, HttpPut body ∈ calls (ImageController.delete id env w).2 →
           HttpPut body ∈ calls w) ∧
  (ImageController.delete id env w).1
  = (ImageController.delete id
       {| get_reply := get_reply env; search_reply := Resolved 200 None;
          put_reply := put_reply env; delete_reply := delete_reply env |} w).1.
Proof.
  intros Hid Hget Hfound. split; [|split].
  - rewrite (delete_impressions _ _ _ _ _ Hid Hget). by rewrite Hfound.
  - intros body Hin.
    destruct (delete_calls_cases _ _ _ _ Hin)
      as [?|[?|[?|[?|[[? ?]|(ci & _ & Hci & _)]]]]]; try done.
    rewrite Hfound in Hci. by apply elem_of_nil in Hci.
  - rewrite (delete_fetched _ _ _ _ _ Hid Hget).
    rewrite (delete_fetched id _ w status docRef Hid) by done.
    destruct (Fhir.content docRef) as [contents|]; [|done].
    match goal with |- (match ImageController.unlink_all _ ?wa with _ => _ end).1
                       = (match ImageController.unlink_all _ ?wb with _ => _ end).1 =>
      destruct (unlink_all_files_only contents wa wb) as [Hthrown _];
        [by rewrite !before_cleanup_assets|];
      destruct (ImageController.unlink_all contents wa) as [[? ?]|?],
               (ImageController.unlink_all contents wb) as [[? ?]|?];
        simplify_eq/=; done
    end.
Qed.

Lemma delete_goes_on_without_dependents_witness :
  impressions (ImageController.delete "42"
                 (registry_down_after_fetch stored_record) cascade_world).2
  = impressions cascade_world.
Proof.
  refine (proj1 (delete_goes_on_without_dependents "42"
                   (registry_down_after_fetch stored_record) cascade_world 200%Z
                   stored_record _ eq_refl eq_refl)).
  vm_compute. discriminate.
Defined.

(** ** upload and delete together *)

Lemma store_inr `{sharp : Sharp} (isImage : bool) (fileBuffer : Buffer)
    (full : string) (w0 w1 : World) :
  ImageController.store isImage fileBuffer full w0 = inr w1 →
  impressions w1 = impressions w0 ∧
  ∃ written,
    calls w1 = calls w0 ++ (FsWrite <$> written)
    ∧ written = full :: (if isImage then [ImageController.thumbnailFilename full] else [])
    ∧ (∀ name, name ∈ written → is_Some (assets w1 !! name))
    ∧ (∀ name, name ∉ written → assets w1 !! name = assets w0 !! name).
Proof.
  unfold ImageController.store. destruct isImage.
  - destruct (toFile fileBuffer) as [o|]; [|done].
    destruct (resize_toFile _ _ _) as [t|]; [|done]. intros [= <-].
    split; [done|]. eexists. split; [|split; [reflexivity|split]].
    + simpl. by simplify_list_eq.
    + intros name Hname. simpl.
      destruct (decide (ImageController.thumbnailFilename full = name)) as [->|?].
      * rewrite lookup_insert_eq. by eexists.
      * rewrite lookup_insert_ne by done.
        apply elem_of_cons in Hname as [->|Hname].
        -- rewrite lookup_insert_eq. by eexists.
        -- apply list_elem_of_singleton in Hname. by subst.
    + intros name Hname. simpl. apply not_elem_of_cons in Hname as [? Hname].
      apply not_elem_of_cons in Hname as [? _].
      by rewrite !lookup_insert_ne.
  - intros [= <-]. split; [done|]. eexists. split; [|split; [reflexivity|split]].
    + done.
    + intros name ->%list_elem_of_singleton. simpl. rewrite lookup_insert_eq.
      by eexists.
    + intros name Hname. simpl. apply not_elem_of_cons in Hname as [? _].
      by rewrite lookup_insert_ne.
Qed.

Lemma thumbnail_entry (n : N) (format : string) :
  format ∈ ImageController.allowed_formats →
  Fs.entry_name (ImageController.thumbnailFilename
                   (Hex.toString n +:+ "." +:+ format)) = true.
Proof.
  intros Hin. rewrite (thumbnail_name _ _ Hin).
  apply entry_name_prefixed.
  destruct (allowed_format_plain format Hin) as (_ & Hs & _).
  unfold slashless. rewrite chars_append. apply Forall_app_2; [|done].
  by repeat constructor.
Qed.

(** The record's attachments name the files written, by URL. *)
Lemma attachments_local_names (isImage : bool) (imageType mime : option string)
    (full : string) (fileSizeBytes : N) (now : nat → string) :
  Fs.entry_name full = true →
  (isImage = true → Fs.entry_name (ImageController.thumbnailFilename full) = true) →
  local_names (ImageController.attachments isImage imageType mime full
                 fileSizeBytes now)
  = full :: (if isImage then [ImageController.thumbnailFilename full] else [])
  ∧ Forall cleanable (ImageController.attachments isImage imageType mime full
                        fileSizeBytes now).
Proof.
  intros Hfull Hthumb. unfold ImageController.attachments, local_names.
  assert (∀ name, Fs.entry_name name = true →
            Fs.resolves_to_directory (Path.basename (ImageController.imageUrl name))
            = false) as Hdir.
  { intros name Hname. rewrite imageUrl_basename by done.
    unfold Fs.entry_name in Hname. apply andb_true_iff in Hname as [Hname _].
    by apply negb_true_iff in Hname. }
  destruct isImage; simpl.
  - rewrite !imageUrl_basename by auto. split; [done|].
    repeat constructor; eexists; (split; [reflexivity|]); simpl; auto.
  - rewrite imageUrl_basename by auto. split; [done|].
    repeat constructor; eexists; (split; [reflexivity|]); simpl; auto.
Qed.

(** An upload that answered [ok], taken apart. *)
Lemma upload_ok_inv `{sharp : Sharp} (at_limit : bool)
    (req : UploadRequest) (env : UploadEnv) (w w1 : World) (r : UploadOk) :
  ImageController.upload at_limit req env w = (ok r, w1) →
  ∃ file0 rest ws contents,
    image req = file0 :: rest ∧
    let detected := detected_format (ImageController.classify (Skipper.fd file0)) in
    let isImage := (ImageController.classify (Skipper.fd file0)).2 in
    let stored :=
      stored_filename (Hex.toString (randomBytes env)) detected
        (Skipper.filename file0) in
    ImageController.store isImage (Skipper.fd file0) stored (emit SharpMetadata w)
    = inr ws ∧
    w1 = emit (HttpPost (ImageController.documentReference req contents)) ws ∧
    local_names contents = written_names r ∧
    Forall cleanable contents ∧
    written_names r
    = stored :: (if isImage then [ImageController.thumbnailFilename stored] else []) ∧
    Fs.entry_name stored = true ∧
    ok_url r = ImageController.imageUrl stored ∧
    ok_path r = "/images/" +:+ stored ∧
    ok_size r = buf_length (Skipper.fd file0) ∧
    (isImage = true → ∃ format,
        format ∈ ImageController.allowed_formats ∧ detected = Some format).
Proof.
  unfold ImageController.upload.
  destruct (Skipper.upload _ _ _) as [err|[|file0 rest]] eqn:Hrecv; [done..|].
  assert (image req = file0 :: rest) as Himage.
  { unfold Skipper.upload in Hrecv. by destruct (_ || _); simplify_eq. }
  destruct (_ =? 0); [done|]. rewrite filenameFull_shape.
  set (detected := detected_format _). set (isImage := (ImageController.classify _).2).
  set (stored := stored_filename _ _ _).
  destruct (ImageController.store _ _ _ _) as [[err ws]|ws] eqn:Hstore; [done|].
  destruct (post_reply env) as [status data|]; [|done].
  intros [= <- <-]. exists file0, rest, ws. eexists.
  split; [done|]. split; [done|]. split; [reflexivity|].
  assert (Fs.entry_name stored = true) as Hstored.
  { apply stored_filename_entry. intros format Hd.
    by destruct (detected_allowed _ _ Hd). }
  assert (isImage = true → ∃ format,
            format ∈ ImageController.allowed_formats ∧ detected = Some format)
    as Himg.
  { intros Hi. destruct (classify_image_format _ Hi) as (format & _ & Hin & Hc).
    exists format. split; [done|]. unfold detected, detected_format.
    by rewrite Hc. }
  assert (isImage = true →
          Fs.entry_name (ImageController.thumbnailFilename stored) = true) as Hthumb.
  { intros Hi. destruct (Himg Hi) as (format & Hin & Hd).
    unfold stored. rewrite Hd. by apply thumbnail_entry. }
  destruct (attachments_local_names isImage
              (ImageController.classify (Skipper.fd file0)).1 (Skipper.type file0)
              stored (buf_length (Skipper.fd file0)) (toISOString env)
              Hstored Hthumb) as [Hnames Hclean].
  unfold written_names. cbn [ok_filename ok_path_thumbnail].
  rewrite Hnames. fold detected stored isImage.
  split; [by destruct isImage|]. split; [done|].
  split; [by destruct isImage|]. done.
Qed.




(** X13. The record a successful upload posts (its last call) names, by the
    basenames of its attachment URLs and in order, exactly the files the
    upload wrote just before the POST. *)
Theorem upload_record_names_written_files `{sharp : Sharp} (at_limit : bool)
    (req : UploadRequest) (env : UploadEnv) (w w1 : World) (r : UploadOk) :
  ImageController.upload at_limit req env w = (ok r, w1) →
  ∃ doc contents,
    last (calls w1) = Some (HttpPost doc) ∧
    Fhir.content doc = Some contents ∧
    local_names contents = written_names r ∧
    (FsWrite <$> written_names r) `suffix_of` removelast (calls w1).
Proof.
  intros Hup.
  destruct (upload_ok_inv _ _ _ _ _ _ Hup)
    as (file0 & rest & ws & contents & Himage & Hstore & -> & Hnames & Hclean
        & Hwritten & _).
  destruct (store_inr _ _ _ _ _ Hstore) as (_ & written & Hcalls & -> & _).
  eexists _, contents. split; [simpl; by rewrite last_snoc|].
  split; [done|]. split; [done|].
  rewrite Hwritten. cbn [calls emit]. rewrite removelast_last, Hcalls.
  by eexists.
Qed.

Lemma upload_record_names_written_files_witness :
  ∃ doc contents,
    last (calls png_world) = Some (HttpPost doc) ∧
    Fhir.content doc = Some contents ∧
    local_names contents = written_names png_reply ∧
    (FsWrite <$> written_names png_reply) `suffix_of` removelast (calls png_world).
Proof.
  exact (upload_record_names_written_files (sharp := Demo.sharp) false
           png_request created_env Demo.world0 png_world png_reply eq_refl).
Defined.



(** Identifiers *)
Lemma toString_inj (a b : N) (ra rb : string) :
  Hex.toString a +:+ ra = Hex.toString b +:+ rb →
  a mod 2 ^ 64 = b mod 2 ^ 64.
Proof.
  intros Heq. rewrite <- !unhex_toString. f_equal. apply chars_inj.
  apply (f_equal list_ascii_of_string) in Heq. rewrite !chars_append in Heq.
  destruct (toString_chars a) as [Ha _], (toString_chars b) as [Hb _].
  by apply app_inj_1 in Heq as [? _]; [|congruence].
Qed.

Lemma written_prefixed `{sharp : Sharp} (at_limit : bool)
    (req : UploadRequest) (env : UploadEnv) (w w1 : World) (r : UploadOk)
    (name : string) :
  ImageController.upload at_limit req env w = (ok r, w1) →
  name ∈ written_names r →
  ∃ rest, name = Hex.toString (randomBytes env) +:+ rest.
Proof.
  intros Hup Hname.
  destruct (upload_ok_inv _ _ _ _ _ _ Hup)
    as (file0 & rest & ws & contents & _ & _ & _ & _ & _ & Hwritten & _ & _ & _
        & _ & Himg).
  rewrite Hwritten in Hname.
  destruct (ImageController.classify (Skipper.fd file0)).2 eqn:Hi.
  - destruct (Himg eq_refl) as (format & Hin & Hd). rewrite Hd in Hname.
    unfold stored_filename in Hname. rewrite (thumbnail_name _ _ Hin) in Hname.
    apply elem_of_cons in Hname as [->|Hname]; [by eexists|].
    apply list_elem_of_singleton in Hname as ->. by eexists.
  - apply list_elem_of_singleton in Hname as ->.
    rewrite (classify_not_image _ Hi). unfold stored_filename.
    case_decide; [|by eexists]. exists "". by rewrite append_empty_r.
Qed.

(** X15. Two successful uploads whose eight random bytes differ never write
    a file of the same name, whatever their payloads and original
    filenames. *)
Theorem uploads_with_distinct_ids_write_distinct_files `{sharp : Sharp}
    (at_limit : bool) (req1 req2 : UploadRequest) (env1 env2 : UploadEnv)
    (w1 w2 w1' w2' : World) (r1 r2 : UploadOk) (name : string) :
  randomBytes env1 mod 2 ^ 64 ≠ randomBytes env2 mod 2 ^ 64 →
  ImageController.upload at_limit req1 env1 w1 = (ok r1, w1') →
  ImageController.upload at_limit req2 env2 w2 = (ok r2, w2') →
  name ∈ written_names r1 →
  name ∉ written_names r2.
Proof.
  intros Hne Hup1 Hup2 Hin1 Hin2.
  destruct (written_prefixed _ _ _ _ _ _ _ Hup1 Hin1) as [rest1 ->].
  destruct (written_prefixed _ _ _ _ _ _ _ Hup2 Hin2) as [rest2 Heq].
  by apply toString_inj in Heq.
Qed.

Lemma uploads_with_distinct_ids_write_distinct_files_witness :
  "0123456789abcdef.png"
  ∉ written_names
      {| ok_filename := "0000000000000001.png";
         ok_size := 4;
         ok_path := "/images/0000000000000001.png";
         ok_path_thumbnail := Some "/images/0000000000000001_thumb.png";
         ok_timestamp := 1735689600000;
         ok_url := "https://imagedb.fhir.tw/images/0000000000000001.png";
         ok_delete := "https://imagedb.fhir.tw/delete/42";
         ok_fhir := Some Demo.created |}.
Proof.
  refine (uploads_with_distinct_ids_write_distinct_files (sharp := Demo.sharp)
            false png_request png_request created_env other_env
            Demo.world0 png_world png_world _ png_reply _ "0123456789abcdef.png"
            _ eq_refl eq_refl _).
  - vm_compute. discriminate.
  - apply list_elem_of_In. simpl. tauto.
Defined.

(** X16. When the POST is rejected after the files were written, the upload
    answers [serverError] with the registration message and rolls nothing
    back: the stored file (and the thumbnail of an image) is still in the
    directory and no unlink was issued. *)
Theorem upload_registration_failure_leaves_files `{sharp : Sharp}
    (at_limit : bool) (req : UploadRequest) (env : UploadEnv) (w : World)
    (file0 : Skipper.File) (rest : list Skipper.File)
    (response : option Z) (message : string) :
  image req = file0 :: rest →
  buf_length (Skipper.fd file0) ≠ 0 →
  (∀ err, (ImageController.upload at_limit req env w).1
          ≠ serverError (ErrThrown err)) →
  post_reply env = Rejected response message →
  let stored :=
    stored_filename (Hex.toString (randomBytes env))
      (detected_format (ImageController.classify (Skipper.fd file0)))
      (Skipper.filename file0) in
  (ImageController.upload at_limit req env w).1
  = serverError (ErrText ImageController.msg_registration_failed) ∧
  is_Some (assets (ImageController.upload at_limit req env w).2 !! stored) ∧
  ((ImageController.classify (Skipper.fd file0)).2 = true →
   is_Some (assets (ImageController.upload at_limit req env w).2
            !! ImageController.thumbnailFilename stored)) ∧
  ∀ name, FsUnlink name ∈ calls (ImageController.upload at_limit req env w).2 →
          FsUnlink name ∈ calls w.
Proof.
  intros Himage Hlen Hthrow Hpost stored. revert Hthrow.
  unfold ImageController.upload.
  destruct (Skipper.upload _ _ _) as [err|files] eqn:Hrecv.
  { intros Hthrow. by destruct (Hthrow err). }
  assert (files = file0 :: rest) as ->.
  { unfold Skipper.upload in Hrecv. destruct (_ || _); by simplify_eq. }
  rewrite (proj2 (N.eqb_neq _ _) Hlen), filenameFull_shape. fold stored.
  destruct (ImageController.store _ _ _ _) as [[err ws]|ws] eqn:Hstore.
  { intros Hthrow. by destruct (Hthrow err). }
  rewrite Hpost. intros _.
  destruct (store_inr _ _ _ _ _ Hstore) as (_ & written & Hcalls & -> & Hsome & _).
  split; [done|]. split; [apply Hsome, elem_of_cons; by left|]. split.
  - intros Hi. apply Hsome. rewrite Hi. apply elem_of_cons. right.
    by apply list_elem_of_singleton.
  - intros name. cbn [snd calls log_error emit]. rewrite Hcalls.
    cbn [calls emit].
    rewrite !elem_of_app, list_elem_of_fmap, !list_elem_of_singleton.
    naive_solver.
Qed.

Lemma upload_registration_failure_leaves_files_witness :
  (ImageController.upload (sharp := Demo.sharp) false png_request
     (Demo.env (Rejected (Some 500%Z) "Request failed with status code 500"))
     Demo.world0).1
  = serverError (ErrText ImageController.msg_registration_failed).
Proof.
  refine (proj1 (upload_registration_failure_leaves_files (sharp := Demo.sharp)
                   false png_request
                   (Demo.env (Rejected (Some 500%Z) "Request failed with status code 500"))
                   Demo.world0 (Demo.file "Photo.JPG" Demo.png) []
                   (Some 500%Z) "Request failed with status code 500"
                   eq_refl _ _ eq_refl)).
  - vm_compute. discriminate.
  - intros err. vm_compute. discriminate.
Defined.

(** ** purge, and the directory as an invariant *)

Lemma well_formed_intro (w : World) :
  (∀ name, is_Some (assets w !! name) → Fs.entry_name name = true) →
  Fs.well_formed w = true.
Proof.
  intros Hall. unfold Fs.well_formed. apply forallb_forall. intros name Hin.
  apply Hall, readdir_elem. by apply list_elem_of_In.
Qed.

Lemma well_formed_elim (w : World) (name : string) :
  Fs.well_formed w = true → is_Some (assets w !! name) →
  Fs.entry_name name = true.
Proof. intros Hwf Hname. eapply well_formed_entry; [done|]. by apply readdir_elem. Qed.

Lemma store_reached_assets `{sharp : Sharp} (isImage : bool) (fileBuffer : Buffer)
    (full : string) (w0 : World) (name : string) :
  is_Some (assets (reached (ImageController.store isImage fileBuffer full w0)) !! name) →
  is_Some (assets w0 !! name)
  ∨ name = full
  ∨ isImage = true ∧ name = ImageController.thumbnailFilename full.
Proof.
  unfold ImageController.store. destruct isImage.
  - destruct (toFile fileBuffer); [|by left].
    destruct (resize_toFile _ _ _); simpl.
    + destruct (decide (ImageController.thumbnailFilename full = name)) as [<-|?];
        [by right; right|]. rewrite lookup_insert_ne by done.
      destruct (decide (full = name)) as [<-|?]; [by right; left|].
      rewrite lookup_insert_ne by done. by left.
    + destruct (decide (full = name)) as [<-|?]; [by right; left|].
      rewrite lookup_insert_ne by done. by left.
  - simpl. destruct (decide (full = name)) as [<-|?]; [by right; left|].
    rewrite lookup_insert_ne by done. by left.
Qed.

Lemma unlink_all_shrinks (contents : list Fhir.Content) (w : World) (name : string) :
  is_Some (assets (reached (ImageController.unlink_all contents w)) !! name) →
  is_Some (assets w !! name).
Proof.
  revert w. induction contents as [|c rest IH]; intros w; [done|].
  simpl. destruct (Fhir.attachment c ≫= Fhir.url) as [u|]; [|done].
  destruct (Fs.existsSync _ w); [|apply IH].
  destruct (Fs.unlink _ w) as [err|w1] eqn:Hunlink; [done|].
  intros Hname%IH. apply unlink_inr in Hunlink as [Hassets _].
  rewrite Hassets in Hname. destruct Hname as [data Hdata].
  apply lookup_delete_Some in Hdata as [_ ?]. by eexists.
Qed.

Lemma unlink_each_run (files : list string) (w : World) :
  impressions (reached (ImageController.unlink_each files w)) = impressions w ∧
  assets (reached (ImageController.unlink_each files w)) !! ".gitkeep"
  = assets w !! ".gitkeep" ∧
  (∀ name, is_Some (assets (reached (ImageController.unlink_each files w)) !! name) →
           is_Some (assets w !! name)) ∧
  ∃ names,
    calls (reached (ImageController.unlink_each files w))
    = calls w ++ (FsUnlink <$> names)
    ∧ names ⊆ files ∧ ".gitkeep" ∉ names.
Proof.
  revert w. induction files as [|file rest IH]; intros w.
  - repeat split; try done. exists []. split; [by rewrite app_nil_r|].
    split; [done|]. by intros ?%elem_of_nil.
  - simpl. destruct (String.eqb_spec file ".gitkeep") as [->|Hmarker].
    + destruct (IH w) as (Himp & Hkeep & Hshrink & names & Hcalls & Hsub & Hnot).
      repeat split; try done. exists names. split; [done|]. split; [set_solver|done].
    + destruct (Fs.unlink file w) as [err|w1] eqn:Hunlink.
      * repeat split; try done. exists []. split; [by rewrite app_nil_r|].
        split; [by intros ? ?%elem_of_nil|]. by intros ?%elem_of_nil.
      * destruct (IH w1) as (Himp & Hkeep & Hshrink & names & Hcalls & Hsub & Hnot).
        pose proof Hunlink as Hw1. apply unlink_inr in Hw1 as [Hassets Himp1].
        assert (calls w1 = calls w ++ [FsUnlink file]) as Hc1.
        { unfold Fs.unlink in Hunlink. destruct (Fs.resolves_to_directory file); [done|].
          destruct (assets w !! file); [|done]. by injection Hunlink as <-. }
        split; [congruence|]. split.
        { rewrite Hkeep, Hassets. by rewrite lookup_delete_ne. }
        split.
        { intros name Hname%Hshrink. rewrite Hassets in Hname.
          destruct Hname as [data Hdata].
          apply lookup_delete_Some in Hdata as [_ ?]. by eexists. }
        exists (file :: names). split; [|split].
        -- rewrite Hcalls, Hc1. by simplify_list_eq.
        -- set_solver.
        -- by intros [?|?]%elem_of_cons.
Qed.

(** X17. Whatever the directory holds and whatever purge answers, it never
    unlinks [.gitkeep], unlinks only entries the listing gave, issues no
    other effect and leaves the registry's records alone. *)
Theorem purge_spares_marker_and_registry (w : World) :
  impressions (ImageController.purge w).2 = impressions w ∧
  assets (ImageController.purge w).2 !! ".gitkeep" = assets w !! ".gitkeep" ∧
  ∃ names,
    calls (ImageController.purge w).2 = calls w ++ (FsUnlink <$> names)
    ∧ names ⊆ Fs.readdir w ∧ ".gitkeep" ∉ names.
Proof.
  unfold ImageController.purge.
  destruct (unlink_each_run (Fs.readdir w) w) as (Himp & Hkeep & _ & Hcalls).
  by destruct (ImageController.unlink_each _ w) as [[err w1]|w1].
Qed.

Lemma upload_well_formed `{sharp : Sharp} (at_limit : bool)
    (req : UploadRequest) (env : UploadEnv) (w : World) :
  Fs.well_formed w = true →
  Fs.well_formed (ImageController.upload at_limit req env w).2 = true.
Proof.
  intros Hwf. apply well_formed_intro. intros name.
  unfold ImageController.upload.
  destruct (Skipper.upload _ _ _) as [err|[|file0 rest]];
    [by apply well_formed_elim..|].
  destruct (_ =? 0); [by apply well_formed_elim|]. rewrite filenameFull_shape.
  set (stored := stored_filename _ _ _).
  set (isImage := (ImageController.classify _).2).
  assert (Fs.entry_name stored = true) as Hstored.
  { apply stored_filename_entry. intros format Hd.
    by destruct (detected_allowed _ _ Hd). }
  pose proof (store_reached_assets isImage (Skipper.fd file0) stored
                (emit SharpMetadata w) name) as Hreach.
  assert (is_Some (assets (reached (ImageController.store isImage
            (Skipper.fd file0) stored (emit SharpMetadata w))) !! name) →
          Fs.entry_name name = true) as Hname.
  { intros [Hold|[->|[Hi ->]]]%Hreach; [by apply (well_formed_elim w)|done|].
    destruct (classify_image_format _ Hi) as (format & _ & Hin & Hc).
    unfold stored, detected_format. rewrite Hc. by apply thumbnail_entry. }
  destruct (ImageController.store _ _ _ _) as [[err ws]|ws]; [exact Hname|].
  by destruct (post_reply env).
Qed.

Lemma delete_shrinks (id : string) (env : DeleteEnv) (w : World) (name : string) :
  is_Some (assets (ImageController.delete id env w).2 !! name) →
  is_Some (assets w !! name).
Proof.
  intros Hname. destruct (decide (id = "")) as [->|Hid]; [done|].
  destruct (get_reply env) as [status docRef|response message] eqn:Hget.
  2:{ revert Hname. unfold ImageController.delete.
      rewrite (truthy_nonempty _ Hid), Hget. cbn [negb]. by case_bool_decide. }
  rewrite (delete_fetched _ _ _ _ _ Hid Hget) in Hname.
  rewrite <- (before_cleanup_assets id env w).
  destruct (Fhir.content docRef) as [contents|]; [|done].
  apply (unlink_all_shrinks contents).
  by destruct (ImageController.unlink_all contents _) as [[err w3]|w3].
Qed.

Lemma purge_shrinks (w : World) (name : string) :
  is_Some (assets (ImageController.purge w).2 !! name) →
  is_Some (assets w !! name).
Proof.
  intros Hname.
  destruct (unlink_each_run (Fs.readdir w) w) as (_ & _ & Hshrink & _).
  apply Hshrink. unfold ImageController.purge in Hname.
  by destruct (ImageController.unlink_each _ w) as [[err w1]|w1].
Qed.

(** X18. The three actions keep the asset directory a flat directory of
    proper entry names: from a well-formed directory, upload, delete and
    purge each leave a well-formed one, whatever they answer. *)
Theorem actions_keep_directory_well_formed `{sharp : Sharp} (at_limit : bool)
    (req : UploadRequest) (uenv : UploadEnv) (id : string) (denv : DeleteEnv)
    (w : World) :
  Fs.well_formed w = true →
  Fs.well_formed (ImageController.upload at_limit req uenv w).2 = true ∧
  Fs.well_formed (ImageController.delete id denv w).2 = true ∧
  Fs.well_formed (ImageController.purge w).2 = true.
Proof.
  intros Hwf. split; [by apply upload_well_formed|].
  split; apply well_formed_intro; intros name Hname;
    apply (well_formed_elim w); [done| |done|].
  - by eapply delete_shrinks.
  - by apply purge_shrinks.
Qed.

Lemma actions_keep_directory_well_formed_witness :
  Fs.well_formed (ImageController.upload (sharp := Demo.sharp) false png_request
                    created_env purge_world).2 = true.
Proof.
  refine (proj1 (actions_keep_directory_well_formed (sharp := Demo.sharp) false
                   png_request created_env "42"
                   (registry_down_after_fetch stored_record) purge_world _)).
  vm_compute. reflexivity.
Defined.



(** ** The [ok] response *)

(** X20. [res.ok] always sets status 200.  It answers with JSON exactly when
    the request wants JSON, or views are disabled, or no view name was given
    and none could be guessed; the JSON carries the data unchanged, wrapped
    as [{success: true, data}] in the first two cases and bare in the
    last. *)
Theorem sendOK_json_answers {A} (req : SendOK.Request)
    (inspect : A → option string) (guessed : bool) (data : SendOK.Data A)
    (options : SendOK.Options) :
  SendOK.status (SendOK.sendOK req inspect guessed data options) = 200%Z ∧
  ((∃ body, SendOK.sent (SendOK.sendOK req inspect guessed data options)
            = SendOK.Json body)
   ↔ SendOK.wantsJSON req = true ∨ SendOK.views_disabled req = true
     ∨ (Js.truthy (SendOK.view_of options) = false ∧ guessed = false)) ∧
  ∀ body,
    SendOK.sent (SendOK.sendOK req inspect guessed data options) = SendOK.Json body →
    SendOK.body_data body = data ∧
    (body = SendOK.Envelope true data
     ↔ SendOK.wantsJSON req = true ∨ SendOK.views_disabled req = true).
Proof.
  split; [done|]. unfold SendOK.sendOK. simpl.
  destruct (SendOK.wantsJSON req), (SendOK.views_disabled req); simpl;
    try (split; [split; [auto|by eexists]|by intros body [= <-]; split; [|split; auto]]).
  destruct (Js.truthy (SendOK.view_of options)).
  { split; [split; [by intros [? ?]|by intros [?|[?|[? ?]]]]|done]. }
  destruct guessed.
  { split; [split; [by intros [? ?]|by intros [?|[?|[? ?]]]]|done]. }
  split; [split; [auto|by eexists]|].
  intros body [= <-]. split; [done|]. split; [done|by intros [?|?]].
Qed.


